(** * Personal-finance chatbot backend (app.py): model and properties

    A shallow embedding of [app.py]: the text utilities [clean_text] and
    [generate_text], and the three JSON handlers [api_chat], [api_budget]
    and [api_insights].

    Python values are modelled as follows.
    - A [str] is the list of its Unicode code points ([pystr]); [len],
      slicing, [in], [split], [strip] and [join] work on code points as
      they do in Python.
    - A [float] is an IEEE 754 binary64 number ([PrimFloat.float]); an
      [int] is a [Z].
    - A decoded JSON body is a [value]; a [dict] keeps its items in
      insertion order.
    - A raised exception is the [Raise] case of [outcome]; a handler that
      raises is answered by the server with status 500.
    - The text-generation pipeline samples its output, so it is an
      arbitrary function from the prompt to a text or an exception.

    Three library behaviours depend on the interpreter's Unicode tables
    and are modelled on their ASCII / Latin-1 part only: [str.lower]
    (letters A-Z), the digits accepted by [float(str)] (0-9) and the
    printable test used by [repr(str)].  The statements below that involve
    them are made in terms of these functions. *)

From Stdlib Require Import List ZArith NArith Bool Lia Ascii String Floats.
Import ListNotations.

Set Warnings "-register-all".

(** ** Strings as code-point lists *)

Module Str.

Definition codepoint := N.
Definition pystr := list codepoint.

(** Decoding of UTF-8 bytes, used to write literals. *)
Fixpoint utf8_decode (bs : list N) : pystr :=
  match bs with
  | [] => []
  | b0 :: r0 =>
      if (b0 <? 128)%N then b0 :: utf8_decode r0
      else
        match r0 with
        | [] => []
        | b1 :: r1 =>
            if (b0 <? 224)%N then ((b0 mod 32) * 64 + b1 mod 64)%N :: utf8_decode r1
            else
              match r1 with
              | [] => []
              | b2 :: r2 =>
                  if (b0 <? 240)%N
                  then ((b0 mod 16) * 4096 + (b1 mod 64) * 64 + b2 mod 64)%N :: utf8_decode r2
                  else
                    match r2 with
                    | [] => []
                    | b3 :: r3 =>
                        ((b0 mod 8) * 262144 + (b1 mod 64) * 4096
                         + (b2 mod 64) * 64 + b3 mod 64)%N :: utf8_decode r3
                    end
              end
        end
  end.

(** The escape [\n] of a Python literal. *)
Fixpoint unescape (s : pystr) : pystr :=
  match s with
  | 92%N :: 110%N :: r => 10%N :: unescape r
  | c :: r => c :: unescape r
  | [] => []
  end.

(** [py "..."] is the Python string written as that literal. *)
Definition py (s : string) : pystr :=
  unescape (utf8_decode (map N_of_ascii (list_ascii_of_string s))).

Fixpoint eqb (a b : pystr) : bool :=
  match a, b with
  | [], [] => true
  | x :: a', y :: b' => (x =? y)%N && eqb a' b'
  | _, _ => false
  end.

(** [c.isspace()] for one code point: the characters [str.strip()] removes. *)
Definition isspace (c : codepoint) : bool :=
  ((9 <=? c) && (c <=? 13) || (28 <=? c) && (c <=? 32)
   || (c =? 133) || (c =? 160) || (c =? 5760)
   || (8192 <=? c) && (c <=? 8202)
   || (c =? 8232) || (c =? 8233) || (c =? 8239) || (c =? 8287) || (c =? 12288))%N.

Fixpoint lstrip (s : pystr) : pystr :=
  match s with
  | [] => []
  | c :: s' => if isspace c then lstrip s' else s
  end.

Definition rstrip (s : pystr) : pystr := rev (lstrip (rev s)).

(** [s.strip()] *)
Definition strip (s : pystr) : pystr := rstrip (lstrip s).

(** [s.startswith(p)] *)
Fixpoint starts_with (p s : pystr) : bool :=
  match p, s with
  | [], _ => true
  | _ :: _, [] => false
  | x :: p', y :: s' => (x =? y)%N && starts_with p' s'
  end.

(** [m in s] *)
Fixpoint contains (m s : pystr) : bool :=
  starts_with m s || match s with [] => false | _ :: s' => contains m s' end.

(** [s.split(sep)] for a non-empty [sep]: the pieces between the leftmost
    non-overlapping occurrences of [sep].  [skip] counts the characters of
    an occurrence still to be passed over. *)
Fixpoint split_go (sep : pystr) (skip : nat) (s : pystr) : list pystr :=
  match s with
  | [] => [[]]
  | c :: s' =>
      match skip with
      | S k => split_go sep k s'
      | O =>
          if starts_with sep s then [] :: split_go sep (List.length sep - 1) s'
          else
            match split_go sep O s' with
            | piece :: rest => (c :: piece) :: rest
            | [] => [[c]]
            end
      end
  end.

Definition split (sep s : pystr) : list pystr := split_go sep 0 s.

(** [sep.join(l)] *)
Fixpoint join (sep : pystr) (l : list pystr) : pystr :=
  match l with
  | [] => []
  | x :: l' => match l' with [] => x | _ :: _ => x ++ sep ++ join sep l' end
  end.

(** ASCII part of [s.lower()]. *)
Definition lower_char (c : codepoint) : codepoint :=
  if ((65 <=? c) && (c <=? 90))%N then (c + 32)%N else c.

Definition lower (s : pystr) : pystr := map lower_char s.

(** The text of [s] before the first occurrence of [tok]. *)
Fixpoint before (tok s : pystr) : pystr :=
  match s with
  | [] => []
  | c :: s' => if starts_with tok s then [] else c :: before tok s'
  end.

(** [m] occurs in [s] as a substring. *)
Definition occurs (m s : pystr) : Prop := exists a b, s = a ++ m ++ b.

End Str.

Import Str.

(** ** Exceptions *)

(** The exception classes the modelled code can raise (all of them
    subclasses of [Exception]); [OtherError] stands for whatever the
    generation backend may raise. *)
Inductive exn : Type :=
| ValueError
| TypeError
| AttributeError
| OverflowError
| OtherError (message : pystr).

Inductive outcome (A : Type) : Type :=
| Ok (a : A)
| Raise (e : exn).

Arguments Ok {A} a.
Arguments Raise {A} e.

Definition bind {A B : Type} (m : outcome A) (k : A -> outcome B) : outcome B :=
  match m with
  | Ok a => k a
  | Raise e => Raise e
  end.

Notation "x <- m ;; k" := (bind m (fun x => k))
  (at level 61, m at next level, right associativity).

(** ** Numbers: [int], [float] and their text forms *)

Module Num.

Local Open Scope Z_scope.

Definition float := PrimFloat.float.

(** A Python number: an [int] or a [float]. *)
Inductive number : Type :=
| PInt (z : Z)
| PFloat (f : float).

Fixpoint uint_digits (u : Decimal.uint) : pystr :=
  match u with
  | Decimal.Nil => []
  | Decimal.D0 u' => 48%N :: uint_digits u'
  | Decimal.D1 u' => 49%N :: uint_digits u'
  | Decimal.D2 u' => 50%N :: uint_digits u'
  | Decimal.D3 u' => 51%N :: uint_digits u'
  | Decimal.D4 u' => 52%N :: uint_digits u'
  | Decimal.D5 u' => 53%N :: uint_digits u'
  | Decimal.D6 u' => 54%N :: uint_digits u'
  | Decimal.D7 u' => 55%N :: uint_digits u'
  | Decimal.D8 u' => 56%N :: uint_digits u'
  | Decimal.D9 u' => 57%N :: uint_digits u'
  end.

(** Decimal digits of a non-negative integer ("0" for zero). *)
Definition digits (n : Z) : pystr := uint_digits (N.to_uint (Z.to_N n)).

(** [str(z)] for an int. *)
Definition int_str (z : Z) : pystr :=
  if z <? 0 then py "-" ++ digits (- z) else digits z.

(** [float(z)] for an int: the nearest float (ties to even), or
    [OverflowError] when that is beyond the largest finite float. *)
Definition float_of_int (z : Z) : outcome float :=
  match binary_normalize prec emax z 0 false with
  | S754_infinity _ => Raise OverflowError
  | sf => Ok (SF2Prim sf)
  end.

(** The float nearest to the positive rational [n / d] (ties to even).
    The quotient is taken with at least 55 significant bits and a sticky
    bit for the remainder, then rounded once. *)
Definition round_ratio (n d : Z) : float :=
  let s := Z.max 0 (55 + Z.log2 d - Z.log2 n) in
  let q := (n * 2 ^ s) / d in
  let r := (n * 2 ^ s) mod d in
  let m := 2 * q + (if r =? 0 then 0 else 1) in
  SF2Prim (binary_normalize prec emax m (- s - 1) false).

(** The float nearest to [D * 10^q], for [D >= 0]. *)
Definition dec_to_float (D q : Z) : float :=
  if D =? 0 then PrimFloat.zero
  else if 0 <=? q then SF2Prim (binary_normalize prec emax (D * 10 ^ q) 0 false)
  else round_ratio D (10 ^ (- q)).

(** *** [float(s)] for a string *)

Definition is_digit (c : codepoint) : bool := ((48 <=? c) && (c <=? 57))%N.

Fixpoint span_digits (s : pystr) : pystr * pystr :=
  match s with
  | c :: s' =>
      if is_digit c then let (ds, r) := span_digits s' in (c :: ds, r) else ([], s)
  | [] => ([], [])
  end.

Definition digits_value (ds : pystr) : Z :=
  fold_left (fun acc c => 10 * acc + (Z.of_N c - 48)) ds 0.

(** Underscores may only stand between two digits; they are then dropped. *)
Fixpoint drop_underscores (prev : codepoint) (s : pystr) : option pystr :=
  match s with
  | [] => if (prev =? 95)%N then None else Some []
  | c :: s' =>
      if (c =? 95)%N then
        if is_digit prev then drop_underscores c s' else None
      else if (prev =? 95)%N && negb (is_digit c) then None
      else option_map (cons c) (drop_underscores c s')
  end.

Definition split_sign (s : pystr) : bool * pystr :=
  match s with
  | 45%N :: r => (true, r)
  | 43%N :: r => (false, r)
  | _ => (false, s)
  end.

(** The unsigned decimal literal [digits [. digits] [e [sign] digits]]
    read as [(D, q)], standing for [D * 10^q]. *)
Definition parse_decimal (s : pystr) : option (Z * Z) :=
  let (ip, r1) := span_digits s in
  let (fp, r2) := match r1 with 46%N :: r => span_digits r | _ => ([], r1) end in
  match ip ++ fp with
  | [] => None
  | _ :: _ =>
      let mant := digits_value (ip ++ fp) in
      let frac := Z.of_nat (List.length fp) in
      match r2 with
      | [] => Some (mant, - frac)
      | c :: r =>
          if ((c =? 101) || (c =? 69))%N then
            let (neg, r') := split_sign r in
            match span_digits r' with
            | ((_ :: _) as ed, []) =>
                let e := digits_value ed in
                Some (mant, (if neg then - e else e) - frac)
            | _ => None
            end
          else None
      end
  end.

Fixpoint drop_while (p : codepoint -> bool) (s : pystr) : pystr :=
  match s with
  | [] => []
  | c :: s' => if p c then drop_while p s' else s
  end.

(** The white space [float] strips from both ends: what [strip] removes,
    except the four separators U+001C to U+001F. *)
Definition float_strip (s : pystr) : pystr :=
  let blank (c : codepoint) := isspace c && negb ((28 <=? c) && (c <=? 31))%N in
  rev (drop_while blank (rev (drop_while blank s))).

Definition float_of_str (s : pystr) : outcome float :=
  match drop_underscores 0%N (float_strip s) with
  | None => Raise ValueError
  | Some t =>
      let (neg, body) := split_sign t in
      let signed (f : float) := if neg then (- f)%float else f in
      let word := lower body in
      if eqb word (py "inf") || eqb word (py "infinity") then Ok (signed infinity)
      else if eqb word (py "nan") then Ok nan
      else
        match parse_decimal body with
        | Some (D, q) => Ok (signed (dec_to_float D q))
        | None => Raise ValueError
        end
  end.

(** *** [repr(x)] for a float: the shortest digits that read back as [x] *)

(** The position of the decimal point of the positive rational [n / d]:
    the [k] with [10^(k-1) <= n/d < 10^k]. *)
Definition decimal_point (n d : Z) : Z :=
  if d <=? n then Z.of_nat (List.length (digits (n / d)))
  else
    let l := Z.of_nat (List.length (digits (d / n))) in
    if d <=? n * 10 ^ (l - 1) then 2 - l else 1 - l.

(** [n / d] written with [p] significant digits: the digit string [D] (an
    integer) reading back as [x], if the digits below or above [n / d] do. *)
Definition try_digits (x : float) (n d k p : Z) : option Z :=
  let num := n * 10 ^ Z.max (p - k) 0 in
  let den := d * 10 ^ Z.max (k - p) 0 in
  let lo := num / den in
  let r := num mod den in
  if r =? 0 then Some lo
  else
    let ok D := PrimFloat.eqb (dec_to_float D (k - p)) x in
    match ok lo, ok (lo + 1) with
    | true, true =>
        if (2 * r <? den) || ((2 * r =? den) && Z.even lo) then Some lo else Some (lo + 1)
    | true, false => Some lo
    | false, true => Some (lo + 1)
    | false, false => None
    end.

Fixpoint shortest_digits (fuel : nat) (x : float) (n d k p : Z) : Z * Z :=
  match fuel with
  | O => (n * 10 ^ Z.max (p - k) 0 / (d * 10 ^ Z.max (k - p) 0), p)
  | S fuel' =>
      match try_digits x n d k p with
      | Some D => (D, p)
      | None => shortest_digits fuel' x n d k (p + 1)
      end
  end.

Fixpoint strip_zeros_rev (r : pystr) : pystr :=
  match r with
  | 48%N :: r' => strip_zeros_rev r'
  | _ => r
  end.

Definition zeros (k : Z) : pystr := repeat 48%N (Z.to_nat k).

Definition exponent_str (e : Z) : pystr :=
  (if e <? 0 then py "-" else py "+")
    ++ (if Z.abs e <? 10 then py "0" else []) ++ digits (Z.abs e).

(** The layout of [repr]: digits [ds] with the decimal point after
    [decpt] of them; scientific notation outside [-4 < decpt <= 16]. *)
Definition layout_repr (ds : pystr) (decpt : Z) : pystr :=
  let len := Z.of_nat (List.length ds) in
  if (decpt <=? -4) || (16 <? decpt) then
    match ds with
    | [] => []
    | d1 :: rest =>
        [d1] ++ (match rest with [] => [] | _ :: _ => py "." ++ rest end)
          ++ py "e" ++ exponent_str (decpt - 1)
    end
  else if decpt <=? 0 then py "0." ++ zeros (- decpt) ++ ds
  else if len <=? decpt then ds ++ zeros (decpt - len) ++ py ".0"
  else firstn (Z.to_nat decpt) ds ++ py "." ++ skipn (Z.to_nat decpt) ds.

(** The exact value [n / d] of the finite float with mantissa [m] and
    exponent [e]. *)
Definition exact_ratio (m : positive) (e : Z) : Z * Z :=
  if 0 <=? e then (Zpos m * 2 ^ e, 1) else (Zpos m, 2 ^ (- e)).

Definition sign_str (neg : bool) : pystr := if neg then py "-" else [].

Definition float_repr (x : float) : pystr :=
  match Prim2SF x with
  | S754_nan => py "nan"
  | S754_infinity neg => sign_str neg ++ py "inf"
  | S754_zero neg => sign_str neg ++ py "0.0"
  | S754_finite neg m e =>
      let (n, d) := exact_ratio m e in
      let k := decimal_point n d in
      let (D, p) := shortest_digits 17 (PrimFloat.abs x) n d k 1 in
      let all := digits D in
      let ds := rev (strip_zeros_rev (rev all)) in
      sign_str neg ++ layout_repr ds (k - p + Z.of_nat (List.length all))
  end.

(** *** [format(x, '.2f')]: two decimals, the exact value rounded to even *)

Definition format_2f (x : float) : pystr :=
  match Prim2SF x with
  | S754_nan => py "nan"
  | S754_infinity neg => sign_str neg ++ py "inf"
  | S754_zero neg => sign_str neg ++ py "0.00"
  | S754_finite neg m e =>
      let (n, d) := exact_ratio m e in
      let q := (n * 100) / d in
      let r := (n * 100) mod d in
      let R := if (d <? 2 * r) || ((2 * r =? d) && Z.odd q) then q + 1 else q in
      let cents := R mod 100 in
      sign_str neg ++ digits (R / 100) ++ py "."
        ++ (if cents <? 10 then py "0" else []) ++ digits cents
  end.

(** *** Arithmetic as Python performs it *)

(** [a + b] where [a] is an int or a float and [b] a float. *)
Definition add_float (a : number) (b : float) : outcome float :=
  match a with
  | PFloat f => Ok (f + b)%float
  | PInt z => f <- float_of_int z ;; Ok (f + b)%float
  end.

(** [a - b] where [a] is a float and [b] an int or a float. *)
Definition float_sub (a : float) (b : number) : outcome float :=
  match b with
  | PFloat f => Ok (a - f)%float
  | PInt z => f <- float_of_int z ;; Ok (a - f)%float
  end.

(** The value of a number as a float (the ints met here are small). *)
Definition as_float (x : number) : float :=
  match x with
  | PFloat f => f
  | PInt z => SF2Prim (binary_normalize prec emax z 0 false)
  end.

(** [str(x)] of a number, as an f-string inserts it. *)
Definition number_str (x : number) : pystr :=
  match x with
  | PInt z => int_str z
  | PFloat f => float_repr f
  end.

(** The loop of the built-in [sum] once its running total is a float.
    Up to CPython 3.11 the floats are added one by one; from 3.12 on
    ([compensated = true]) the rounding errors are collected in [c]
    (Neumaier's method) and added at the end. *)
Fixpoint sum_floats (compensated : bool) (total c : float) (xs : list float) : float :=
  match xs with
  | [] =>
      if compensated && negb (PrimFloat.eqb c PrimFloat.zero) && PrimFloat.is_finite c
      then (total + c)%float else total
  | x :: xs' =>
      let t := (total + x)%float in
      if compensated then
        let c' :=
          if (PrimFloat.abs x <=? PrimFloat.abs total)%float
          then (c + ((total - t) + x))%float
          else (c + ((x - t) + total))%float in
        sum_floats compensated t c' xs'
      else sum_floats compensated t c xs'
  end.

(** [sum(xs)] over floats: the int [0] for no item, else the first item
    added to [0] and the rest accumulated. *)
Definition py_sum (compensated : bool) (xs : list float) : number :=
  match xs with
  | [] => PInt 0
  | x :: xs' => PFloat (sum_floats compensated (PrimFloat.zero + x)%float PrimFloat.zero xs')
  end.

End Num.

Import Num.

(** ** Decoded JSON bodies and the Python operations applied to them *)

(** What [request.get_json] returns: [None], a [bool], an [int], a
    [float], a [str], a [list], or a [dict] with string keys in insertion
    order. *)
Inductive value : Type :=
| VNone
| VBool (b : bool)
| VInt (z : Z)
| VFloat (f : float)
| VStr (s : pystr)
| VList (items : list value)
| VDict (items : list (pystr * value)).

(** Truth value of an object, as [or] and [if] test it. *)
Definition truthy (v : value) : bool :=
  match v with
  | VNone => false
  | VBool b => b
  | VInt z => negb (z =? 0)%Z
  | VFloat f => negb (PrimFloat.eqb f PrimFloat.zero)
  | VStr s => match s with [] => false | _ :: _ => true end
  | VList l => match l with [] => false | _ :: _ => true end
  | VDict l => match l with [] => false | _ :: _ => true end
  end.

(** [v or w] *)
Definition py_or (v w : value) : value := if truthy v then v else w.

(** [float(v)] *)
Definition py_float (v : value) : outcome float :=
  match v with
  | VFloat f => Ok f
  | VInt z => float_of_int z
  | VBool b => Ok (if b then PrimFloat.one else PrimFloat.zero)
  | VStr s => float_of_str s
  | VNone | VList _ | VDict _ => Raise TypeError
  end.

Fixpoint assoc {A : Type} (k : pystr) (items : list (pystr * A)) : option A :=
  match items with
  | [] => None
  | (k', v) :: rest => if eqb k k' then Some v else assoc k rest
  end.

(** [d.get(k, default)]; only a dict has the method. *)
Definition dict_get (d : value) (k : pystr) (default : value) : outcome value :=
  match d with
  | VDict items =>
      Ok (match assoc k items with Some v => v | None => default end)
  | _ => Raise AttributeError
  end.

(** The items a [for] loop sees: the elements of a list, the keys of a
    dict, the characters of a string; other objects are not iterable. *)
Definition py_iter (v : value) : outcome (list value) :=
  match v with
  | VList l => Ok l
  | VDict items => Ok (map (fun kv => VStr (fst kv)) items)
  | VStr s => Ok (map (fun c => VStr [c]) s)
  | VNone | VBool _ | VInt _ | VFloat _ => Raise TypeError
  end.

(** [v.lower()]; only a string has the method. *)
Definition py_lower (v : value) : outcome pystr :=
  match v with
  | VStr s => Ok (lower s)
  | _ => Raise AttributeError
  end.

Fixpoint map_outcome {A B : Type} (f : A -> outcome B) (l : list A) : outcome (list B) :=
  match l with
  | [] => Ok []
  | a :: l' => b <- f a ;; bs <- map_outcome f l' ;; Ok (b :: bs)
  end.

(** *** Text forms: [json.dumps], [repr] and [str] *)

Definition hex_digit (n : N) : codepoint := (if n <? 10 then 48 + n else 87 + n)%N.

Definition hex2 (n : N) : pystr := [hex_digit (n / 16 mod 16); hex_digit (n mod 16)]%N.

Definition hex4 (n : N) : pystr := (hex2 (n / 256) ++ hex2 (n mod 256))%N.

Definition QUOTE : pystr := [34%N].

(** One character inside a [json.dumps] string ([ensure_ascii] is on). *)
Definition json_escape (c : codepoint) : pystr :=
  if (c =? 34)%N then [92; 34]%N
  else if (c =? 92)%N then [92; 92]%N
  else if (c =? 10)%N then [92; 110]%N
  else if (c =? 13)%N then [92; 114]%N
  else if (c =? 9)%N then [92; 116]%N
  else if (c =? 8)%N then [92; 98]%N
  else if (c =? 12)%N then [92; 102]%N
  else if ((32 <=? c) && (c <=? 126))%N then [c]
  else if (c <? 65536)%N then [92; 117]%N ++ hex4 c
  else
    let n := (c - 65536)%N in
    [92; 117]%N ++ hex4 (55296 + n / 1024) ++ [92; 117]%N ++ hex4 (56320 + n mod 1024).

Definition json_string (s : pystr) : pystr :=
  QUOTE ++ List.concat (map json_escape s) ++ QUOTE.

Definition json_float (f : float) : pystr :=
  match Prim2SF f with
  | S754_nan => py "NaN"
  | S754_infinity neg => sign_str neg ++ py "Infinity"
  | _ => float_repr f
  end.

(** [json.dumps(v)] *)
Fixpoint json_dumps (v : value) : pystr :=
  match v with
  | VNone => py "null"
  | VBool b => if b then py "true" else py "false"
  | VInt z => int_str z
  | VFloat f => json_float f
  | VStr s => json_string s
  | VList l => py "[" ++ join (py ", ") (map json_dumps l) ++ py "]"
  | VDict items =>
      py "{"
        ++ join (py ", ")
             (map (fun kv => match kv with
                             | (k, x) => json_string k ++ py ": " ++ json_dumps x
                             end) items)
        ++ py "}"
  end.

(** Latin-1 part of [str.isprintable]; code points above are taken as
    printable. *)
Definition isprintable (c : codepoint) : bool :=
  ((32 <=? c) && (c <=? 126) || (161 <=? c) && negb (c =? 173))%N.

Definition repr_char (quote c : codepoint) : pystr :=
  if ((c =? quote) || (c =? 92))%N then [92%N; c]
  else if (c =? 9)%N then [92; 116]%N
  else if (c =? 10)%N then [92; 110]%N
  else if (c =? 13)%N then [92; 114]%N
  else if isprintable c then [c]
  else if (c <? 256)%N then [92; 120]%N ++ hex2 c
  else if (c <? 65536)%N then [92; 117]%N ++ hex4 c
  else [92; 85]%N ++ hex4 (c / 65536) ++ hex4 (c mod 65536).

(** [repr(s)] for a string: single quotes unless the text has a single
    quote and no double quote. *)
Definition repr_str (s : pystr) : pystr :=
  let quote := if existsb (N.eqb 39) s && negb (existsb (N.eqb 34) s) then 34%N else 39%N in
  [quote] ++ List.concat (map (repr_char quote) s) ++ [quote].

(** [repr(v)] *)
Fixpoint py_repr (v : value) : pystr :=
  match v with
  | VNone => py "None"
  | VBool b => if b then py "True" else py "False"
  | VInt z => int_str z
  | VFloat f => float_repr f
  | VStr s => repr_str s
  | VList l => py "[" ++ join (py ", ") (map py_repr l) ++ py "]"
  | VDict items =>
      py "{"
        ++ join (py ", ")
             (map (fun kv => match kv with
                             | (k, x) => repr_str k ++ py ": " ++ py_repr x
                             end) items)
        ++ py "}"
  end.

(** [str(v)], which is what an f-string field [{v}] inserts. *)
Definition py_str (v : value) : pystr :=
  match v with
  | VStr s => s
  | _ => py_repr v
  end.

(** ** Utility: clean AI output (app.py, lines 37-43) *)

Definition NL : pystr := py "\n".

(** [final[-1]] when [final] is not empty. *)
Fixpoint last_line (final : list pystr) : option pystr :=
  match final with
  | [] => None
  | x :: l => match l with [] => Some x | _ :: _ => last_line l end
  end.

(** One iteration of the loop of [clean_text]:
    [if not final or line.strip() != final[-1].strip(): final.append(line)]. *)
Definition clean_step (final : list pystr) (line : pystr) : list pystr :=
  match last_line final with
  | None => final ++ [line]
  | Some prev =>
      if negb (eqb (strip line) (strip prev)) then final ++ [line] else final
  end.

(** The list [final] after the loop has run over [lines]. *)
Definition dedup_lines (lines : list pystr) : list pystr :=
  fold_left clean_step lines [].

Definition clean_text (text : pystr) : pystr :=
  strip (join NL (dedup_lines (split NL text))).

(** ** Utility: generate text (app.py, lines 13-22 and 48-72) *)

(** The loaded text-generation pipeline.  [run prompt max_len] is the
    outcome of the call [hf_pipeline(prompt, max_length=max_len, ...)]
    followed by [out[0]['generated_text']]: the generated text, or the
    exception raised on the way.  Sampling makes the text unpredictable, so
    nothing is assumed about [run]. *)
Record pipeline : Type := { run : pystr -> Z -> outcome pystr }.

(** The two module-level variables set at start-up. *)
Record backend : Type := {
  use_hf : bool;
  hf_pipeline : option pipeline
}.

(** The start-up [try]/[except] block around the import and the
    construction of the pipeline. *)
Definition load_backend (attempt : outcome pipeline) : backend :=
  match attempt with
  | Ok p => {| use_hf := true; hf_pipeline := Some p |}
  | Raise _ => {| use_hf := false; hf_pipeline := None |}
  end.

Definition stop_tokens : list pystr :=
  [py "User:"; py "Assistant:"; py "Instruction:"; py "Answer:"].

(** The body of the loop over the stop tokens:
    [if stop_token in result: result = result.split(stop_token)[0].strip()]. *)
Definition cut_at (result stop_token : pystr) : pystr :=
  if contains stop_token result
  then strip (hd [] (split stop_token result))
  else result.

(** The whole loop [for stop_token in [...]]. *)
Definition stop_at_tokens (result : pystr) : pystr :=
  fold_left cut_at stop_tokens result.

Definition FALLBACK : pystr :=
  py "Sorry — AI backend not configured. Install HuggingFace/Torch or connect IBM/Granite.".

Definition generate_text (b : backend) (prompt : pystr) (max_len : Z) : pystr :=
  match use_hf b, hf_pipeline b with
  | true, Some p =>
      match run p prompt max_len with
      | Ok generated =>
          let result := strip (skipn (List.length prompt) generated) in
          clean_text (stop_at_tokens result)
      | Raise _ => FALLBACK
      end
  | _, _ => FALLBACK
  end.

(** ** Profile contexts (app.py, lines 27-32) *)

Definition STUDENT_CONTEXT : pystr :=
  py "User is a student with limited income. Explain things in simple language with practical, low-cost steps.".

Definition PROFESSIONAL_CONTEXT : pystr :=
  py "User is a working professional. Provide formal, actionable advice including tax and investment options.".

Definition RETIRED_CONTEXT : pystr :=
  py "User is retired or near-retired. Focus on safety, fixed income, healthcare, and low-risk options.".

Definition DEFAULT_CONTEXT : pystr :=
  py "Provide clear and practical personal finance advice.".

Definition PROFILE_CONTEXTS : list (pystr * pystr) :=
  [ (py "student", STUDENT_CONTEXT);
    (py "professional", PROFESSIONAL_CONTEXT);
    (py "retired", RETIRED_CONTEXT);
    (py "default", DEFAULT_CONTEXT) ].

(** Looking a key up in [PROFILE_CONTEXTS] hashes it first: a list or a
    dict raises [TypeError]; a key that is not a string equals none of
    the (string) keys. *)
Definition profile_lookup (key : value) : outcome (option pystr) :=
  match key with
  | VList _ | VDict _ => Raise TypeError
  | VStr k => Ok (assoc k PROFILE_CONTEXTS)
  | VNone | VBool _ | VInt _ | VFloat _ => Ok None
  end.

(** [key in PROFILE_CONTEXTS] *)
Definition profile_mem (key : value) : outcome bool :=
  found <- profile_lookup key ;;
  Ok (match found with Some _ => true | None => false end).

(** [PROFILE_CONTEXTS.get(key, default)] *)
Definition profile_get (key : value) (default : pystr) : outcome pystr :=
  found <- profile_lookup key ;;
  Ok (match found with Some c => c | None => default end).

(** [jsonify({field: text})]: the body of the 200 response. *)
Definition jsonify (field text : pystr) : value := VDict [(field, VStr text)].

(** ** Chat endpoint (app.py, lines 86-98) *)

(** The context sentence [api_chat] resolves:
    [demographic = demographic if demographic in PROFILE_CONTEXTS else "default"]
    then [PROFILE_CONTEXTS.get(demographic, "")]. *)
Definition chat_context (demographic : value) : outcome pystr :=
  known <- profile_mem demographic ;;
  let demographic := if known then demographic else VStr (py "default") in
  profile_get demographic [].

(** The f-string of line 96. *)
Definition chat_prompt_text (context : pystr) (complexity message : value) : pystr :=
  context ++ py "\nComplexity: " ++ py_str complexity
    ++ py "\nInstruction: " ++ py_str message ++ py "\nAnswer:".

(** The prompt [api_chat] builds for a request body. *)
Definition chat_prompt (data : value) : outcome pystr :=
  message <- dict_get data (py "message") (VStr []) ;;
  demographic <- dict_get data (py "demographic") (VStr (py "default")) ;;
  complexity <- dict_get data (py "complexity") (VStr (py "moderate")) ;;
  context <- chat_context demographic ;;
  Ok (chat_prompt_text context complexity message).

Definition api_chat (b : backend) (data : value) : outcome value :=
  prompt <- chat_prompt data ;;
  let reply := generate_text b prompt 200 in
  Ok (jsonify (py "reply") reply).

(** ** Budget summarizer (app.py, lines 103-118) *)

(** [float(t.get(field, 0) or 0)] *)
Definition coerce_field (t : value) (field : pystr) : outcome float :=
  raw <- dict_get t field (VInt 0) ;;
  py_float (py_or raw (VInt 0)).

(** The coerced amount of one transaction. *)
Definition coerce_amount (t : value) : outcome float := coerce_field t (py "amount").

(** The deterministic block of line 113. *)
Definition budget_block (income : float) (total_spent : number) (savings : float) : pystr :=
  py "Monthly Income: ₹" ++ float_repr income
    ++ py "\nTotal Spent: ₹" ++ number_str total_spent
    ++ py "\nEstimated Savings: ₹" ++ float_repr savings ++ py "\n".

(** The f-string of line 115. *)
Definition budget_prompt_text (context : pystr) (txns : value) (income : float) : pystr :=
  context ++ py "\nGiven the following transactions: " ++ json_dumps txns
    ++ py "\nIncome: " ++ float_repr income
    ++ py "\nInstruction: Write an easy-to-read budget summary and 3 suggestions to improve savings."
    ++ py "\nAnswer:".

(** What [api_budget] computes before it calls the generator: income,
    total spent, savings, and the prompt. *)
Definition budget_figures (compensated : bool) (data : value)
  : outcome (float * number * float * pystr) :=
  income <- coerce_field data (py "incomeMonthly") ;;
  txns <- dict_get data (py "transactions") (VList []) ;;
  demographic <- dict_get data (py "demographic") (VStr (py "default")) ;;
  items <- py_iter txns ;;
  amounts <- map_outcome coerce_amount items ;;
  let total_spent := py_sum compensated amounts in
  savings <- float_sub income total_spent ;;
  context <- profile_get demographic [] ;;
  Ok (income, total_spent, savings, budget_prompt_text context txns income).

(** [compensated] tells which [sum] the interpreter has (see
    [sum_floats]). *)
Definition api_budget (compensated : bool) (b : backend) (data : value) : outcome value :=
  figures <- budget_figures compensated data ;;
  let '(income, total_spent, savings, prompt) := figures in
  let summary := budget_block income total_spent savings in
  let ai_paragraph := generate_text b prompt 180 in
  Ok (jsonify (py "summary") (summary ++ py "\nAI Summary:\n" ++ ai_paragraph)).

(** ** Insights endpoint (app.py, lines 123-154) *)

(** [any(k in desc for k in keywords)] *)
Definition any_in (keywords : list pystr) (desc : pystr) : bool :=
  existsb (fun k => contains k desc) keywords.

(** The [if]/[elif] chain of lines 133-142. *)
Definition categorize (desc : pystr) : pystr :=
  if any_in [py "rent"; py "home"] desc then py "Rent"
  else if any_in [py "food"; py "dine"; py "restaurant"; py "cafe"] desc then py "Dining"
  else if any_in [py "grocery"; py "supermarket"] desc then py "Grocery"
  else if any_in [py "tax"; py "income tax"] desc then py "Taxes"
  else py "Other".

(** The dict [categories]: its items in insertion order. *)
Definition totals := list (pystr * float).

(** [categories[cat] = x]: an existing key keeps its place, a new key
    goes last. *)
Fixpoint dict_set (categories : totals) (cat : pystr) (x : float) : totals :=
  match categories with
  | [] => [(cat, x)]
  | (k, v) :: rest =>
      if eqb cat k then (k, x) :: rest else (k, v) :: dict_set rest cat x
  end.

(** [categories[cat] = categories.get(cat, 0) + amt] *)
Definition accumulate (categories : totals) (cat : pystr) (amt : float) : totals :=
  dict_set categories cat
    (match assoc cat categories with
     | Some v => (v + amt)%float
     | None => (PrimFloat.zero + amt)%float
     end).

(** One iteration of the loop of lines 130-143. *)
Definition insights_step (categories : totals) (t : value) : outcome totals :=
  raw_desc <- dict_get t (py "desc") (VStr []) ;;
  desc <- py_lower (py_or raw_desc (VStr [])) ;;
  amt <- coerce_amount t ;;
  Ok (accumulate categories (categorize desc) amt).

Fixpoint insights_loop (categories : totals) (txns : list value) : outcome totals :=
  match txns with
  | [] => Ok categories
  | t :: rest => categories' <- insights_step categories t ;; insights_loop categories' rest
  end.

(** [max(items, key=lambda x: x[1])] after its first item: a later item
    replaces the best one only when its value is strictly greater. *)
Definition max_by_value (best : pystr * float) (items : totals) : pystr * float :=
  fold_left (fun best item => if (snd best <? snd item)%float then item else best) items best.

(** [max(categories.items(), key=lambda x: x[1])] for a non-empty dict. *)
Definition top_category (categories : totals) : option (pystr * float) :=
  match categories with
  | [] => None
  | first :: rest => Some (max_by_value first rest)
  end.

(** The deterministic sentence of lines 145-149. *)
Definition insights_line (categories : totals) : pystr :=
  match top_category categories with
  | Some (cat, total) =>
      py "Top spending category: " ++ cat ++ py " (₹" ++ format_2f total
        ++ py "). Consider reducing it by 10%."
  | None => py "No transactions supplied — provide some transactions for insights."
  end.

(** The f-string of line 151. *)
Definition insights_prompt_text (context : pystr) (categories : totals) : pystr :=
  context ++ py "\nTransactions summary: "
    ++ json_dumps (VDict (map (fun kv => (fst kv, VFloat (snd kv))) categories))
    ++ py "\nInstruction: Give 3 actionable spending insights in short sentences."
    ++ py "\nAnswer:".

(** What [api_insights] computes before it calls the generator: the
    category totals and the prompt. *)
Definition insights_figures (data : value) : outcome (totals * pystr) :=
  txns <- dict_get data (py "transactions") (VList []) ;;
  demographic <- dict_get data (py "demographic") (VStr (py "default")) ;;
  items <- py_iter txns ;;
  categories <- insights_loop [] items ;;
  context <- profile_get demographic [] ;;
  Ok (categories, insights_prompt_text context categories).

Definition api_insights (b : backend) (data : value) : outcome value :=
  figures <- insights_figures data ;;
  let '(categories, prompt) := figures in
  let insights := insights_line categories in
  let ai_advice := generate_text b prompt 140 in
  Ok (jsonify (py "insights") (insights ++ py "\n\nAI Suggestions:\n" ++ ai_advice)).

(** ** The HTTP layer *)

(** Flask answers 200 with the handler's JSON, and 500 when the handler
    raises. *)
Definition http_status (r : outcome value) : Z :=
  match r with
  | Ok _ => 200
  | Raise _ => 500
  end.

(** ** Notions used in the statements *)

(** No two neighbours in [l] have the same trimmed form. *)
Fixpoint no_repeats (l : list pystr) : bool :=
  match l with
  | [] => true
  | x :: l' =>
      match l' with
      | [] => true
      | y :: _ => negb (eqb (strip x) (strip y)) && no_repeats l'
      end
  end.

(** The text [generate_text] returns when the pipeline answered
    [generated]. *)
Definition cleaned (prompt generated : pystr) : pystr :=
  clean_text (stop_at_tokens (strip (skipn (List.length prompt) generated))).

(** C4: the conditions under which the backend gives no text: loading
    failed at start-up, the flag is off, there is no pipeline, or the
    call raised. *)
Definition backend_fails (b : backend) (prompt : pystr) (max_len : Z) : Prop :=
  (exists e, b = load_backend (Raise e))
  \/ use_hf b = false
  \/ hf_pipeline b = None
  \/ exists p e, hf_pipeline b = Some p /\ run p prompt max_len = Raise e.

(** A pipeline that raises on every call. *)
Definition broken_pipeline : pipeline :=
  {| run := fun _ _ => Raise (OtherError (py "CUDA out of memory")) |}.

(** The text of [s] before the earliest occurrence of any of [toks]. *)
Fixpoint before_any (toks : list pystr) (s : pystr) : pystr :=
  match s with
  | [] => []
  | c :: s' =>
      if existsb (fun t => starts_with t s) toks then [] else c :: before_any toks s'
  end.

(** A token that neither starts nor ends with white space. *)
Definition solid (t : pystr) : bool :=
  match t with
  | [] => false
  | h :: _ => negb (isspace h) && negb (isspace (last t h))
  end.

(** The first character of [u] does not occur in [t] after its first
    character: an occurrence of [u] cannot begin inside one of [t]. *)
Definition clear_of (u t : pystr) : bool :=
  match u with
  | [] => false
  | h :: _ => negb (existsb (N.eqb h) (tl t))
  end.

(** Every token is solid, and no token can begin inside another (or
    inside itself). *)
Definition separated (toks : list pystr) : bool :=
  forallb (fun t => solid t && forallb (fun u => clear_of u t) toks) toks.

(** The text kept when cutting at the earliest occurrence of any of
    [toks]: trimmed when a token was found, untouched otherwise. *)
Definition earliest_cut (toks : list pystr) (result : pystr) : pystr :=
  if existsb (fun t => contains t result) toks
  then strip (before_any toks result)
  else result.

(** C3, as the specification words it: look for the markers in the order
    given, and cut at the first occurrence of the first marker found -
    that marker only. *)
Fixpoint first_present (toks : list pystr) (result : pystr) : option pystr :=
  match toks with
  | [] => None
  | tok :: rest => if contains tok result then Some tok else first_present rest result
  end.

Definition cut_by_priority (result : pystr) : pystr :=
  match first_present stop_tokens result with
  | Some tok => strip (before tok result)
  | None => result
  end.

(** A pipeline that answers the prompt followed by a fixed continuation. *)
Definition echo_pipeline (continuation : pystr) : pipeline :=
  {| run := fun prompt _ => Ok (prompt ++ continuation) |}.


(** The request of the specification's example: income 5000 and one
    transaction of amount 2000. *)
Definition budget_example : value :=
  VDict [ (py "incomeMonthly", VInt 5000);
          (py "transactions", VList [VDict [(py "amount", VInt 2000)]]) ].

(** The body [api_budget] returns for the example when the pipeline
    continues every prompt with " Spend less.". *)
Definition budget_example_body : value :=
  jsonify (py "summary")
    (py "Monthly Income: ₹5000.0\nTotal Spent: ₹2000.0\nEstimated Savings: ₹3000.0\n"
       ++ py "\nAI Summary:\n" ++ py "Spend less.").



(** The categories dict after the (category, amount) pairs [obs] have been
    accumulated into [categories]. *)
Definition tally (categories : totals) (obs : list (pystr * float)) : totals :=
  fold_left (fun cats o => accumulate cats (fst o) (snd o)) obs categories.


(** The categories in the order in which the scan first meets them. *)
Definition first_seen (cs : list pystr) : list pystr :=
  fold_left (fun seen c => if existsb (eqb c) seen then seen else seen ++ [c]) cs [].


(** The category of the first rule one of whose keywords occurs in
    [desc]; "Other" when no rule matches. *)
Fixpoint first_match (rules : list (pystr * list pystr)) (desc : pystr) : pystr :=
  match rules with
  | [] => py "Other"
  | (cat, keywords) :: rest =>
      if existsb (fun k => contains k desc) keywords then cat else first_match rest desc
  end.

(** What one iteration of the loop reads off a transaction: its category
    and its coerced amount. *)
Definition observe (t : value) : outcome (pystr * float) :=
  raw_desc <- dict_get t (py "desc") (VStr []) ;;
  desc <- py_lower (py_or raw_desc (VStr [])) ;;
  amt <- coerce_amount t ;;
  Ok (categorize desc, amt).

(** The request of the specification's example. *)
Definition insights_example_txns : list value :=
  [ VDict [(py "desc", VStr (py "Rent payment")); (py "amount", VInt 1000)];
    VDict [(py "desc", VStr (py "Cafe")); (py "amount", VInt 200)] ].

Definition insights_example : value :=
  VDict [(py "transactions", VList insights_example_txns)].

Definition insights_example_totals : totals :=
  [(py "Rent", 1000%float); (py "Dining", 200%float)].






Inductive endpoint : Type := Chat | Budget | Insights.

(** The prompt a handler builds for a request body, before it calls
    [generate_text]. *)
Definition built_prompt (ep : endpoint) (compensated : bool) (data : value) : outcome pystr :=
  match ep with
  | Chat => chat_prompt data
  | Budget => figures <- budget_figures compensated data ;; Ok (snd figures)
  | Insights => figures <- insights_figures data ;; Ok (snd figures)
  end.

(** The handler of an endpoint and the length budget it passes on. *)
Definition handler (ep : endpoint) (compensated : bool) (b : backend) (data : value)
  : outcome value :=
  match ep with
  | Chat => api_chat b data
  | Budget => api_budget compensated b data
  | Insights => api_insights b data
  end.

Definition max_len_of (ep : endpoint) : Z :=
  match ep with
  | Chat => 200
  | Budget => 180
  | Insights => 140
  end.

(** The text field of a handler's answer. *)
Definition answer_text (body : value) : pystr :=
  match body with
  | VDict [(_, VStr text)] => text
  | _ => []
  end.


(** A request body that only names a demographic. *)
Definition demographic_request (key : pystr) : value :=
  VDict [(py "demographic", VStr key)].

(** An object that can be a dict key: anything but a list or a dict. *)
Definition hashable (v : value) : bool :=
  match v with
  | VList _ | VDict _ => false
  | _ => true
  end.

(** The body of an insights request as the interface describes it, with
    no transactions: an object whose "transactions" field is absent or an
    empty list, and whose "demographic" field is absent or hashable (a
    string, in the interface). *)
Definition no_transactions (items : list (pystr * value)) : bool :=
  match assoc (py "transactions") items with
  | None | Some (VList []) => true
  | Some _ => false
  end
  && match assoc (py "demographic") items with
     | None => true
     | Some d => hashable d
     end.

(** [l1] is [l2] with some items left out, the others in their order. *)
Inductive subseq {A : Type} : list A -> list A -> Prop :=
| subseq_nil : subseq [] []
| subseq_skip (x : A) (l1 l2 : list A) : subseq l1 l2 -> subseq l1 (x :: l2)
| subseq_keep (x : A) (l1 l2 : list A) : subseq l1 l2 -> subseq (x :: l1) (x :: l2).

(** The five category labels. *)
Definition LABELS : list pystr :=
  [py "Rent"; py "Dining"; py "Grocery"; py "Taxes"; py "Other"].

(** A request body that is a JSON object. *)
Definition is_object (data : value) : bool :=
  match data with
  | VDict _ => true
  | _ => false
  end.

(** A value a [for] loop cannot run over: [null], a boolean or a number. *)
Definition not_iterable (v : value) : bool :=
  match v with
  | VNone | VBool _ | VInt _ | VFloat _ => true
  | VStr _ | VList _ | VDict _ => false
  end.

(** The rule list without the keyword "income tax". *)
Definition RULES_WITHOUT_INCOME_TAX : list (pystr * list pystr) :=
  [ (py "Rent", [py "rent"; py "home"]);
    (py "Dining", [py "food"; py "dine"; py "restaurant"; py "cafe"]);
    (py "Grocery", [py "grocery"; py "supermarket"]);
    (py "Taxes", [py "tax"]) ].

(** * Properties *)

(** ** Facts about strings *)

Lemma eqb_eq (a b : pystr) : eqb a b = true <-> a = b.
Proof.
  revert b; induction a as [|x a IH]; intros [|y b]; simpl; split;
    try congruence; try reflexivity.
  - intros H. apply andb_true_iff in H as [Hx Hab].
    apply N.eqb_eq in Hx. apply IH in Hab. congruence.
  - intros H. injection H as -> ->. rewrite N.eqb_refl. simpl. now apply IH.
Qed.

Lemma eqb_refl (a : pystr) : eqb a a = true.
Proof. now apply eqb_eq. Qed.

Lemma eqb_neq (a b : pystr) : eqb a b = false <-> a <> b.
Proof.
  split.
  - intros H E. apply eqb_eq in E. congruence.
  - intros H. destruct (eqb a b) eqn:E; [apply eqb_eq in E; contradiction | reflexivity].
Qed.

Lemma starts_with_prefix (p s : pystr) :
  starts_with p s = true <-> exists r, s = p ++ r.
Proof.
  revert s; induction p as [|x p IH]; intros s; simpl.
  - split; [intros _; now exists s | reflexivity].
  - destruct s as [|y s].
    + split; [discriminate | intros [r H]; discriminate].
    + split.
      * intros H. apply andb_true_iff in H as [Hx Hp].
        apply N.eqb_eq in Hx. apply IH in Hp as [r ->]. exists r. now subst.
      * intros [r H]. injection H as -> ->. rewrite N.eqb_refl. simpl.
        apply IH. now exists r.
Qed.

Lemma contains_occurs (m s : pystr) : contains m s = true <-> occurs m s.
Proof.
  induction s as [|c s IH].
  - simpl. rewrite orb_false_r, starts_with_prefix. split.
    + intros [r H]. exists [], r. exact H.
    + intros [a [b H]]. destruct a; [now exists b | discriminate].
  - simpl. rewrite orb_true_iff, starts_with_prefix, IH. split.
    + intros [[r H] | [a [b H]]].
      * exists [], r. exact H.
      * exists (c :: a), b. simpl. now rewrite H.
    + intros [a [b H]]. destruct a as [|x a].
      * left. now exists b.
      * right. injection H as _ H. now exists a, b.
Qed.

Lemma contains_false (m s : pystr) : contains m s = false <-> ~ occurs m s.
Proof.
  rewrite <- contains_occurs. destruct (contains m s); split; congruence.
Qed.

Lemma occurs_refl (s : pystr) : occurs s s.
Proof. exists [], []. simpl. now rewrite app_nil_r. Qed.

Lemma occurs_trans (m s t : pystr) : occurs m s -> occurs s t -> occurs m t.
Proof.
  intros [a [b ->]] [c [d ->]]. exists (c ++ a), (b ++ d).
  now rewrite <- !app_assoc.
Qed.

Lemma occurs_prefix (s r : pystr) : occurs s (s ++ r).
Proof. now exists [], r. Qed.

Lemma occurs_suffix (w s : pystr) : occurs s (w ++ s).
Proof. exists w, []. now rewrite app_nil_r. Qed.

Lemma occurs_cons (m s : pystr) (c : codepoint) : occurs m s -> occurs m (c :: s).
Proof. intros H. apply (occurs_trans _ _ _ H). apply (occurs_suffix [c]). Qed.

(** *** [strip] keeps a middle part of the string *)

Lemma lstrip_suffix (s : pystr) :
  exists w, s = w ++ lstrip s /\ forallb isspace w = true.
Proof.
  induction s as [|c s [w [E Hw]]]; simpl.
  - now exists [].
  - destruct (isspace c) eqn:Hc.
    + exists (c :: w). simpl. rewrite Hc, Hw. split; [now rewrite <- E | reflexivity].
    + now exists [].
Qed.

Lemma rstrip_prefix (s : pystr) :
  exists w, s = rstrip s ++ w /\ forallb isspace w = true.
Proof.
  unfold rstrip. destruct (lstrip_suffix (rev s)) as [w [E Hw]].
  exists (rev w). split.
  - rewrite <- rev_app_distr, <- E. now rewrite rev_involutive.
  - rewrite forallb_forall in *. intros x Hx. apply Hw. now apply in_rev.
Qed.

Lemma strip_middle (s : pystr) :
  exists w1 w2, s = w1 ++ strip s ++ w2
                /\ forallb isspace w1 = true /\ forallb isspace w2 = true.
Proof.
  destruct (lstrip_suffix s) as [w1 [E1 H1]].
  destruct (rstrip_prefix (lstrip s)) as [w2 [E2 H2]].
  exists w1, w2. unfold strip. now rewrite <- E2.
Qed.

Lemma strip_occurs (s : pystr) : occurs (strip s) s.
Proof. destruct (strip_middle s) as [w1 [w2 [E _]]]. now exists w1, w2. Qed.

Lemma lstrip_head (s : pystr) :
  match lstrip s with [] => True | c :: _ => isspace c = false end.
Proof.
  induction s as [|c s IH]; simpl; [exact I|].
  destruct (isspace c) eqn:Hc; [exact IH | exact Hc].
Qed.

Lemma lstrip_fixed (s : pystr) :
  match s with [] => True | c :: _ => isspace c = false end -> lstrip s = s.
Proof. destruct s as [|c s]; simpl; [reflexivity | now intros ->]. Qed.

Lemma lstrip_idem (s : pystr) : lstrip (lstrip s) = lstrip s.
Proof. apply lstrip_fixed, lstrip_head. Qed.

Lemma lstrip_app_nonspace (a b : pystr) (c : codepoint) :
  isspace c = false -> lstrip (a ++ c :: b) = lstrip (a ++ [c]) ++ b.
Proof.
  intros Hc. induction a as [|x a IH]; simpl.
  - now rewrite Hc.
  - destruct (isspace x); [exact IH | simpl; now rewrite <- app_assoc].
Qed.

Lemma lstrip_spaces (w : pystr) : forallb isspace w = true -> lstrip w = [].
Proof.
  induction w as [|c w IH]; simpl; [reflexivity|].
  intros H. apply andb_true_iff in H as [-> Hw]. now apply IH.
Qed.

(** [rstrip] does not touch the first character. *)
Lemma rstrip_cons_nonspace (c : codepoint) (s : pystr) :
  isspace c = false -> rstrip (c :: s) = c :: rstrip s.
Proof.
  intros Hc. unfold rstrip. simpl.
  destruct (lstrip_suffix (rev s)) as [w [E Hw]].
  destruct (lstrip (rev s)) as [|y t] eqn:El.
  - rewrite app_nil_r in E. rewrite E.
    replace (w ++ [c]) with (w ++ c :: []) by reflexivity.
    rewrite lstrip_app_nonspace by exact Hc.
    assert (lstrip (w ++ [c]) = [c]) as ->.
    { clear E. induction w as [|x w IH]; simpl; [now rewrite Hc|].
      simpl in Hw. apply andb_true_iff in Hw as [-> Hw]. now apply IH. }
    reflexivity.
  - pose proof (lstrip_head (rev s)) as Hh. rewrite El in Hh.
    assert (lstrip (rev s ++ [c]) = (y :: t) ++ [c]) as ->.
    { rewrite E at 1. rewrite <- app_assoc. simpl.
      rewrite lstrip_app_nonspace by exact Hh.
      assert (lstrip (w ++ [y]) = [y]) as ->.
      { clear E. induction w as [|x w IH]; simpl; [now rewrite Hh|].
        simpl in Hw. apply andb_true_iff in Hw as [-> Hw]. now apply IH. }
      reflexivity. }
    now rewrite rev_app_distr.
Qed.

Lemma strip_head (s : pystr) :
  match strip s with [] => True | c :: _ => isspace c = false end.
Proof.
  unfold strip. pose proof (lstrip_head s) as H.
  destruct (lstrip s) as [|c t]; [exact I|].
  now rewrite rstrip_cons_nonspace.
Qed.

Lemma rstrip_idem (s : pystr) : rstrip (rstrip s) = rstrip s.
Proof. unfold rstrip. now rewrite rev_involutive, lstrip_idem. Qed.

Lemma strip_idem (s : pystr) : strip (strip s) = strip s.
Proof.
  unfold strip at 1. rewrite lstrip_fixed by apply strip_head.
  unfold strip. apply rstrip_idem.
Qed.

(** *** [before], [split] and [join] *)

Lemma before_prefix (tok s : pystr) : exists r, s = before tok s ++ r.
Proof.
  induction s as [|c s [r E]]; simpl.
  - now exists [].
  - destruct (starts_with tok (c :: s)).
    + now exists (c :: s).
    + exists r. simpl. now rewrite <- E.
Qed.

Lemma before_occurs (tok s : pystr) : occurs (before tok s) s.
Proof. destruct (before_prefix tok s) as [r E]. rewrite E at 2. apply occurs_prefix. Qed.

Lemma starts_with_app (p s r : pystr) :
  starts_with p s = true -> starts_with p (s ++ r) = true.
Proof.
  rewrite !starts_with_prefix. intros [t ->]. exists (t ++ r). now rewrite app_assoc.
Qed.

(** The text before the first occurrence of a non-empty token does not
    contain the token. *)
Lemma before_free (tok s : pystr) : tok <> [] -> contains tok (before tok s) = false.
Proof.
  intros Htok. induction s as [|c s IH].
  - simpl. destruct tok; [contradiction | reflexivity].
  - simpl. destruct (starts_with tok (c :: s)) eqn:E.
    + simpl. destruct tok; [contradiction | reflexivity].
    + change (contains tok (c :: before tok s))
        with (starts_with tok (c :: before tok s) || contains tok (before tok s)).
      rewrite IH, orb_false_r.
      destruct (starts_with tok (c :: before tok s)) eqn:E'; [|reflexivity].
      destruct (before_prefix tok s) as [r Er].
      apply (starts_with_app _ _ r) in E'. simpl in E'. rewrite <- Er in E'. congruence.
Qed.

Lemma split_go_nonempty (sep : pystr) (skip : nat) (s : pystr) : split_go sep skip s <> [].
Proof.
  revert skip; induction s as [|c s IH]; intros skip; simpl; [discriminate|].
  destruct skip; [|apply IH].
  destruct (starts_with sep (c :: s)); [discriminate|].
  destruct (split_go sep 0 s); discriminate.
Qed.

(** [s.split(tok)[0]] is the text before the first occurrence of [tok]. *)
Lemma split_head (tok s : pystr) : hd [] (split tok s) = before tok s.
Proof.
  unfold split. induction s as [|c s IH]; simpl; [reflexivity|].
  destruct (starts_with tok (c :: s)); [reflexivity|].
  destruct (split_go tok 0 s) eqn:E; [now apply split_go_nonempty in E|].
  simpl in *. now rewrite IH.
Qed.

(** Every piece of a split is a part of the string. *)
Lemma split_go_occurs (sep : pystr) (skip : nat) (s p : pystr) :
  In p (split_go sep skip s) -> occurs p s.
Proof.
  revert skip p; induction s as [|c s IH]; intros skip p; simpl.
  - intros [<- | []]. apply occurs_refl.
  - destruct skip as [|k].
    + destruct (starts_with sep (c :: s)).
      * intros [<- | H]; [now exists [], (c :: s) | apply occurs_cons; eauto].
      * pose proof (split_head sep s) as Hh. unfold split in Hh.
        destruct (split_go sep 0 s) as [|piece rest] eqn:E;
          [now apply split_go_nonempty in E|].
        simpl in Hh. intros [<- | H].
        -- destruct (before_prefix sep s) as [r Er]. rewrite Hh.
           exists [], r. simpl. now rewrite <- Er.
        -- apply occurs_cons. apply (IH 0%nat). rewrite E. now right.
    + intros H. apply occurs_cons. eauto.
Qed.

Lemma split_occurs (sep s p : pystr) : In p (split sep s) -> occurs p s.
Proof. apply split_go_occurs. Qed.

(** A string without the character [c] that occurs in [a ++ c :: b] occurs
    in [a] or in [b]. *)
Lemma occurs_app_sep (m a b : pystr) (c : codepoint) :
  ~ In c m -> occurs m (a ++ c :: b) -> occurs m a \/ occurs m b.
Proof.
  intros Hc [x [y E]].
  symmetry in E. apply app_eq_app in E as [l [[E1 E2] | [E1 E2]]].
  - destruct l as [|z l].
    + simpl in E2. rewrite app_nil_r in E1. subst x.
      destruct m as [|z m]; [left; exists a, []; now rewrite app_nil_r|].
      injection E2 as <- _. exfalso. apply Hc. now left.
    + injection E2 as <- E2. right. exists l, y. exact E2.
  - apply app_eq_app in E2 as [l2 [[E3 E4] | [E3 E4]]].
    + destruct l2 as [|z l2].
      * rewrite app_nil_r in E3. subst l. left. exists x, []. now rewrite app_nil_r.
      * injection E4 as <- _. exfalso. apply Hc. subst m. apply in_or_app. right. now left.
    + left. subst l. exists x, l2. exact E1.
Qed.

Lemma join_occurs (m : pystr) (c : codepoint) (l : list pystr) :
  m <> [] -> ~ In c m -> occurs m (join [c] l) -> exists x, In x l /\ occurs m x.
Proof.
  intros Hm Hc. induction l as [|x l IH]; simpl.
  - intros [a [b E]]. symmetry in E. apply app_eq_nil in E as [_ E].
    apply app_eq_nil in E as [E _]. contradiction.
  - destruct l as [|y l].
    + intros H. exists x. now split; [left|].
    + intros H. apply occurs_app_sep in H as [H | H]; [| |exact Hc].
      * exists x. now split; [left|].
      * destruct (IH H) as [z [Hz Hmz]]. exists z. now split; [right|].
Qed.

(** ** The line filter of [clean_text] *)

Lemma last_line_snoc (final : list pystr) (x : pystr) : last_line (final ++ [x]) = Some x.
Proof.
  induction final as [|y final IH]; [reflexivity|].
  simpl. destruct (final ++ [x]) eqn:E; [now destruct final | exact IH].
Qed.

Lemma snoc_neq (A : Type) (l : list A) (x : A) : l ++ [x] <> l.
Proof.
  intros H. apply (f_equal (@List.length A)) in H.
  rewrite length_app in H. simpl in H. lia.
Qed.

(** Every kept line is one of the lines read. *)
Lemma clean_step_incl (final : list pystr) (line x : pystr) :
  In x (clean_step final line) -> In x final \/ x = line.
Proof.
  unfold clean_step. destruct (last_line final) as [prev|].
  - destruct (negb (eqb (strip line) (strip prev))); [|now left].
    intros H. apply in_app_or in H as [H | [H | []]]; [now left | now right].
  - intros H. apply in_app_or in H as [H | [H | []]]; [now left | now right].
Qed.

Lemma fold_clean_step_incl (lines final : list pystr) (x : pystr) :
  In x (fold_left clean_step lines final) -> In x final \/ In x lines.
Proof.
  revert final; induction lines as [|l lines IH]; intros final; simpl; [now left|].
  intros H. apply IH in H as [H | H]; [|now right; right].
  apply clean_step_incl in H as [H | ->]; [now left | now right; left].
Qed.

Lemma dedup_lines_incl (lines : list pystr) (x : pystr) :
  In x (dedup_lines lines) -> In x lines.
Proof. intros H. apply fold_clean_step_incl in H as [[] | H]. exact H. Qed.

Lemma no_repeats_snoc (l : list pystr) (prev x : pystr) :
  no_repeats l = true -> last_line l = Some prev ->
  eqb (strip x) (strip prev) = false -> no_repeats (l ++ [x]) = true.
Proof.
  induction l as [|a l IH]; [discriminate|].
  intros Hn Hl Hx. destruct l as [|b l].
  - simpl in *. injection Hl as ->.
    destruct (eqb (strip prev) (strip x)) eqn:E; [|reflexivity].
    apply eqb_eq in E. rewrite E, eqb_refl in Hx. discriminate.
  - change (no_repeats (a :: b :: l ++ [x]) = true).
    change (no_repeats (a :: b :: l) = true) in Hn.
    simpl in Hn |- *. apply andb_true_iff in Hn as [Hab Hn].
    rewrite Hab. simpl. apply (IH Hn Hl Hx).
Qed.

Lemma last_line_none (l : list pystr) : last_line l = None -> l = [].
Proof.
  induction l as [|a l IH]; [reflexivity|].
  simpl. destruct l; [discriminate|]. intros H. apply IH in H. discriminate.
Qed.

Lemma fold_clean_step_no_repeats (lines final : list pystr) :
  no_repeats final = true -> no_repeats (fold_left clean_step lines final) = true.
Proof.
  revert final; induction lines as [|l lines IH]; intros final H; simpl; [exact H|].
  apply IH. unfold clean_step. destruct (last_line final) as [prev|] eqn:E.
  - destruct (eqb (strip l) (strip prev)) eqn:Ex; simpl; [exact H|].
    now apply no_repeats_snoc with (prev := prev).
  - apply last_line_none in E. now subst final.
Qed.

(** A text without line breaks that occurs in the cleaned text occurs in
    the text that was cleaned. *)
Lemma clean_text_occurs (m text : pystr) :
  m <> [] -> ~ In 10%N m -> occurs m (clean_text text) -> occurs m text.
Proof.
  intros Hm Hnl H. unfold clean_text in H.
  apply (fun H => occurs_trans _ _ _ H (strip_occurs _)) in H.
  change NL with [10%N] in H.
  apply join_occurs in H as [x [Hx Hmx]]; [|exact Hm|exact Hnl].
  apply dedup_lines_incl, split_occurs in Hx.
  exact (occurs_trans _ _ _ Hmx Hx).
Qed.

(** ** The stop-token loop of [generate_text] *)

Lemma cut_at_before (result tok : pystr) :
  cut_at result tok = if contains tok result then strip (before tok result) else result.
Proof. unfold cut_at. now rewrite split_head. Qed.

Lemma cut_at_occurs (result tok : pystr) : occurs (cut_at result tok) result.
Proof.
  rewrite cut_at_before. destruct (contains tok result); [|apply occurs_refl].
  exact (occurs_trans _ _ _ (strip_occurs _) (before_occurs tok result)).
Qed.

Lemma cut_at_free (result tok : pystr) :
  tok <> [] -> contains tok (cut_at result tok) = false.
Proof.
  intros Htok. rewrite cut_at_before. destruct (contains tok result) eqn:E; [|exact E].
  apply contains_false. intros H.
  apply (fun H => occurs_trans _ _ _ H (strip_occurs _)) in H.
  apply contains_occurs in H. now rewrite before_free in H.
Qed.

Lemma fold_cut_at_occurs (toks : list pystr) (result : pystr) :
  occurs (fold_left cut_at toks result) result.
Proof.
  revert result; induction toks as [|t toks IH]; intros result; simpl.
  - apply occurs_refl.
  - exact (occurs_trans _ _ _ (IH _) (cut_at_occurs result t)).
Qed.

(** After the loop none of the tokens it ran over is left. *)
Lemma fold_cut_at_free (toks : list pystr) (result tok : pystr) :
  In tok toks -> tok <> [] -> contains tok (fold_left cut_at toks result) = false.
Proof.
  revert result; induction toks as [|t toks IH]; intros result Hin Htok; [contradiction|].
  simpl. destruct Hin as [-> | Hin]; [|now apply IH].
  apply contains_false. intros H.
  apply (fun H => occurs_trans _ _ _ H (fold_cut_at_occurs toks _)) in H.
  apply contains_occurs in H. now rewrite cut_at_free in H.
Qed.

Lemma stop_at_tokens_free (result tok : pystr) :
  In tok stop_tokens -> contains tok (stop_at_tokens result) = false.
Proof.
  intros Hin. apply fold_cut_at_free; [exact Hin|].
  unfold stop_tokens in Hin. simpl in Hin.
  destruct Hin as [<- | [<- | [<- | [<- | []]]]]; discriminate.
Qed.

Lemma generate_text_cases (b : backend) (prompt : pystr) (max_len : Z) :
  generate_text b prompt max_len = FALLBACK
  \/ exists generated, generate_text b prompt max_len = cleaned prompt generated.
Proof.
  unfold generate_text. destruct (use_hf b); [|now left].
  destruct (hf_pipeline b) as [p|]; [|now left].
  destruct (run p prompt max_len) as [generated|e]; [|now left].
  right. now exists generated.
Qed.

Lemma cleaned_free (prompt generated tok : pystr) :
  In tok stop_tokens -> contains tok (cleaned prompt generated) = false.
Proof.
  intros Hin. apply contains_false. intros H. unfold cleaned in H.
  apply clean_text_occurs in H.
  - apply contains_occurs in H. now rewrite stop_at_tokens_free in H.
  - unfold stop_tokens in Hin. simpl in Hin.
    destruct Hin as [<- | [<- | [<- | [<- | []]]]]; discriminate.
  - unfold stop_tokens in Hin. simpl in Hin.
    destruct Hin as [<- | [<- | [<- | [<- | []]]]]; vm_compute;
      intros Hnl; repeat (destruct Hnl as [Hnl | Hnl]; [discriminate|]); exact Hnl.
Qed.

(** ** Results on the text utilities *)

(** C8.  Whatever the backend returns - and equally on the fallback path -
    the text [generate_text] hands back never contains the substring
    "Instruction:". *)
Theorem generate_text_never_contains_instruction :
  forall (b : backend) (prompt : pystr) (max_len : Z),
    contains (py "Instruction:") (generate_text b prompt max_len) = false.
Proof.
  intros b prompt max_len.
  destruct (generate_text_cases b prompt max_len) as [-> | [generated ->]].
  - vm_compute. reflexivity.
  - apply cleaned_free. unfold stop_tokens. simpl. tauto.
Qed.

(** C5.  [clean_text] drops a line exactly when the list of kept lines is
    not empty and the line, trimmed, equals the last kept line, trimmed;
    otherwise the line is appended.  So runs of equal lines collapse
    (A,A,B,B,B,C gives A,B,C), a repeat that is not adjacent survives
    (A,B,A stays), no two neighbours of the result are equal after
    trimming, and the joined result is trimmed: it neither starts nor ends
    with white space. *)
Theorem clean_text_collapses_adjacent_repeats :
  (forall (final : list pystr) (line : pystr),
      (clean_step final line = final
       <-> exists prev, last_line final = Some prev /\ strip line = strip prev)
      /\ (clean_step final line = final \/ clean_step final line = final ++ [line]))
  /\ dedup_lines [py "A"; py "A"; py "B"; py "B"; py "B"; py "C"] = [py "A"; py "B"; py "C"]
  /\ clean_text (py "A\nA\nB\nB\nB\nC") = py "A\nB\nC"
  /\ dedup_lines [py "A"; py "B"; py "A"] = [py "A"; py "B"; py "A"]
  /\ dedup_lines [py "A"; py "  A "; py "B"] = [py "A"; py "B"]
  /\ (forall lines : list pystr, no_repeats (dedup_lines lines) = true)
  /\ (forall text : pystr,
        clean_text text = strip (join NL (dedup_lines (split NL text)))
        /\ strip (clean_text text) = clean_text text
        /\ match clean_text text with [] => True | c :: _ => isspace c = false end
        /\ match rev (clean_text text) with [] => True | c :: _ => isspace c = false end).
Proof.
  split; [|repeat split; try reflexivity].
  - intros final line. unfold clean_step.
    destruct (last_line final) as [prev|] eqn:E.
    + destruct (eqb (strip line) (strip prev)) eqn:Ex; simpl.
      * apply eqb_eq in Ex. split; [|now left].
        split; [intros _; now exists prev | reflexivity].
      * apply eqb_neq in Ex. split; [|now right].
        split; [intros H; now apply snoc_neq in H|].
        intros [prev' [H1 H2]]. congruence.
    + split; [|now right].
      split; [intros H; now apply snoc_neq in H|].
      intros [prev [H _]]. discriminate.
  - intros lines. now apply fold_clean_step_no_repeats.
  - unfold clean_text. apply strip_idem.
  - unfold clean_text. apply strip_head.
  - unfold clean_text, strip, rstrip. rewrite rev_involutive. apply lstrip_head.
Qed.

(** C4.  When the backend failed to load at start-up, or the call to it
    raises, [generate_text] returns the fixed fallback sentence; it
    returns a string in every case, never an exception. *)
Theorem generate_text_falls_back :
  forall (b : backend) (prompt : pystr) (max_len : Z),
    backend_fails b prompt max_len ->
    generate_text b prompt max_len
    = py "Sorry — AI backend not configured. Install HuggingFace/Torch or connect IBM/Granite.".
Proof.
  intros b prompt max_len H. unfold generate_text.
  destruct H as [[e ->] | [H | [H | [p [e [Hp He]]]]]].
  - reflexivity.
  - now rewrite H.
  - rewrite H. now destruct (use_hf b).
  - rewrite Hp, He. now destruct (use_hf b).
Qed.

Lemma load_failure_fails (e : exn) (prompt : pystr) (max_len : Z) :
  backend_fails (load_backend (Raise e)) prompt max_len.
Proof. left. now exists e. Qed.

Lemma call_failure_fails (p : pipeline) (e : exn) (prompt : pystr) (max_len : Z) :
  run p prompt max_len = Raise e -> backend_fails (load_backend (Ok p)) prompt max_len.
Proof. intros H. right; right; right. now exists p, e. Qed.

Lemma generate_text_falls_back_witness :
  backend_fails (load_backend (Ok broken_pipeline)) (py "Instruction: hi\nAnswer:") 200
  /\ generate_text (load_backend (Ok broken_pipeline)) (py "Instruction: hi\nAnswer:") 200
     = py "Sorry — AI backend not configured. Install HuggingFace/Torch or connect IBM/Granite.".
Proof.
  split.
  - apply call_failure_fails with (e := OtherError (py "CUDA out of memory")).
    reflexivity.
  - apply (generate_text_falls_back (load_backend (Ok broken_pipeline))).
    apply call_failure_fails with (e := OtherError (py "CUDA out of memory")).
    reflexivity.
Defined.

(** *** The loop cuts at the earliest marker *)

Lemma before_not_found (t s : pystr) : contains t s = false -> before t s = s.
Proof.
  induction s as [|c s IH]; [reflexivity|].
  intros H. change (starts_with t (c :: s) || contains t s = false) in H.
  apply orb_false_iff in H as [H1 H2]. simpl. rewrite H1. now rewrite IH.
Qed.

Lemma before_any_prefix (toks : list pystr) (s : pystr) :
  exists rest, s = before_any toks s ++ rest
               /\ (rest = [] \/ existsb (fun t => starts_with t rest) toks = true).
Proof.
  induction s as [|c s [rest [E H]]].
  - exists []. split; [reflexivity | now left].
  - simpl. destruct (existsb (fun t => starts_with t (c :: s)) toks) eqn:X.
    + exists (c :: s). split; [reflexivity | now right].
    + exists rest. split; [simpl; now rewrite <- E | exact H].
Qed.

Lemma starts_with_head (t s : pystr) (c : codepoint) :
  starts_with t (c :: s) = true -> t = [] \/ exists tl, t = c :: tl.
Proof.
  destruct t as [|h tl]; [now left|]. simpl. intros H.
  apply andb_true_iff in H as [H _]. apply N.eqb_eq in H. subst. right. now exists tl.
Qed.

(** A token that is a prefix of [a ++ b] but not of [a] reaches into [b]. *)
Lemma starts_with_app_split (t a b : pystr) :
  starts_with t (a ++ b) = true -> starts_with t a = false ->
  exists y, y <> [] /\ t = a ++ y /\ starts_with y b = true.
Proof.
  revert t; induction a as [|c a IH]; intros t H1 H2.
  - exists t. destruct t; [discriminate|]. now repeat split.
  - destruct t as [|h t]; [discriminate|]. simpl in *.
    apply andb_true_iff in H1 as [Hh H1]. rewrite Hh in H2. simpl in H2.
    apply N.eqb_eq in Hh. subst h.
    destruct (IH t H1 H2) as [y [Hy [-> Hs]]]. exists y. now repeat split.
Qed.

Lemma starts_with_before_any (toks : list pystr) (t s : pystr) (c : codepoint) :
  (forall u, In u toks -> clear_of u t = true) ->
  starts_with t (c :: s) = starts_with t (c :: before_any toks s).
Proof.
  intros Hclear.
  destruct (before_any_prefix toks s) as [rest [E Hrest]].
  destruct (starts_with t (c :: before_any toks s)) eqn:X.
  - rewrite E. change (c :: before_any toks s ++ rest) with ((c :: before_any toks s) ++ rest).
    now apply starts_with_app.
  - destruct (starts_with t (c :: s)) eqn:Y; [|reflexivity]. exfalso.
    rewrite E in Y.
    change (c :: before_any toks s ++ rest) with ((c :: before_any toks s) ++ rest) in Y.
    destruct (starts_with_app_split _ _ _ Y X) as [y [Hy [Ht Hs]]].
    destruct Hrest as [-> | Hrest]; [destruct y; [contradiction | discriminate]|].
    apply existsb_exists in Hrest as [u [Hu Hur]].
    specialize (Hclear u Hu). unfold clear_of in Hclear.
    destruct u as [|hu u']; [discriminate|].
    destruct rest as [|r rest']; [discriminate|].
    simpl in Hur. apply andb_true_iff in Hur as [Hhr _]. apply N.eqb_eq in Hhr. subst r.
    destruct y as [|hy y']; [contradiction|].
    simpl in Hs. apply andb_true_iff in Hs as [Hhy _]. apply N.eqb_eq in Hhy. subst hy.
    subst t. simpl in Hclear. apply negb_true_iff in Hclear.
    assert (existsb (N.eqb hu) (before_any toks s ++ hu :: y') = true) as Habs.
    { apply existsb_exists. exists hu. split; [|apply N.eqb_refl].
      apply in_or_app. right. now left. }
    congruence.
Qed.

(** Adding a token [t] to the list: the earliest occurrence is looked for
    in the text before the earliest occurrence of the others. *)
Lemma before_any_snoc (toks : list pystr) (t s : pystr) :
  (forall u, In u toks -> clear_of u t = true) ->
  before_any (toks ++ [t]) s = before t (before_any toks s).
Proof.
  intros Hclear. induction s as [|c s IH]; [reflexivity|].
  simpl before_any at 1. rewrite existsb_app. simpl existsb.
  rewrite orb_false_r.
  change (before_any toks (c :: s))
    with (if existsb (fun u => starts_with u (c :: s)) toks then []
          else c :: before_any toks s).
  destruct (existsb (fun u => starts_with u (c :: s)) toks); [reflexivity|].
  simpl orb. simpl before. rewrite <- (starts_with_before_any toks t s c Hclear).
  destruct (starts_with t (c :: s)); [reflexivity | now rewrite IH].
Qed.

Lemma occurs_rev (m s : pystr) : occurs m s -> occurs (rev m) (rev s).
Proof.
  intros [a [b ->]]. exists (rev b), (rev a).
  now rewrite !rev_app_distr, <- app_assoc.
Qed.

Lemma contains_rev (m s : pystr) : contains (rev m) (rev s) = contains m s.
Proof.
  destruct (contains m s) eqn:E.
  - apply contains_occurs. apply occurs_rev. now apply contains_occurs.
  - apply contains_false. intros H. apply occurs_rev in H.
    rewrite !rev_involutive in H. apply contains_occurs in H. congruence.
Qed.

Lemma starts_with_space (t s : pystr) (h c : codepoint) :
  isspace h = false -> isspace c = true -> starts_with (h :: t) (c :: s) = false.
Proof.
  intros Hh Hc. simpl. destruct (h =? c)%N eqn:E; [|reflexivity].
  apply N.eqb_eq in E. subst. congruence.
Qed.

Lemma contains_lstrip (t s : pystr) (h : codepoint) :
  isspace h = false -> contains (h :: t) (lstrip s) = contains (h :: t) s.
Proof.
  intros Hh. induction s as [|c s IH]; [reflexivity|].
  simpl lstrip. destruct (isspace c) eqn:Hc; [|reflexivity].
  rewrite IH. change (contains (h :: t) (c :: s))
    with (starts_with (h :: t) (c :: s) || contains (h :: t) s).
  now rewrite (starts_with_space t s h c Hh Hc).
Qed.

Lemma solid_head (t : pystr) :
  solid t = true -> exists h tl, t = h :: tl /\ isspace h = false.
Proof.
  destruct t as [|h tl]; [discriminate|]. simpl. intros H.
  apply andb_true_iff in H as [H _]. apply negb_true_iff in H. now exists h, tl.
Qed.

Lemma solid_rev_head (t : pystr) :
  solid t = true -> exists h tl, rev t = h :: tl /\ isspace h = false.
Proof.
  destruct t as [|h tl]; [discriminate|]. unfold solid. intros H.
  apply andb_true_iff in H as [_ H]. apply negb_true_iff in H.
  destruct (exists_last (l := h :: tl)) as [l' [z E]]; [discriminate|].
  rewrite E in *. rewrite last_last in H. rewrite rev_app_distr. simpl.
  now exists z, (rev l').
Qed.

Lemma contains_rstrip (t s : pystr) :
  solid t = true -> contains t (rstrip s) = contains t s.
Proof.
  intros Ht. destruct (solid_rev_head t Ht) as [h [tl [E Hh]]].
  unfold rstrip. rewrite <- (contains_rev t (rev (lstrip (rev s)))).
  rewrite rev_involutive, E, (contains_lstrip tl (rev s) h Hh), <- E.
  apply contains_rev.
Qed.

Lemma contains_strip (t s : pystr) : solid t = true -> contains t (strip s) = contains t s.
Proof.
  intros Ht. destruct (solid_head t Ht) as [h [tl [E Hh]]].
  unfold strip. rewrite (contains_rstrip _ _ Ht). subst t. now apply contains_lstrip.
Qed.

Lemma before_spaces (t w s : pystr) (h : codepoint) :
  isspace h = false -> forallb isspace w = true ->
  before (h :: t) (w ++ s) = w ++ before (h :: t) s.
Proof.
  intros Hh. induction w as [|c w IH]; [reflexivity|].
  intros Hw. simpl in Hw. apply andb_true_iff in Hw as [Hc Hw].
  change (before (h :: t) ((c :: w) ++ s))
    with (if starts_with (h :: t) (c :: w ++ s) then [] else c :: before (h :: t) (w ++ s)).
  rewrite (starts_with_space t (w ++ s) h c Hh Hc). now rewrite IH.
Qed.

Lemma lstrip_spaces_app (w s : pystr) : forallb isspace w = true -> lstrip (w ++ s) = lstrip s.
Proof.
  induction w as [|c w IH]; [reflexivity|]. simpl. intros H.
  apply andb_true_iff in H as [-> H]. now apply IH.
Qed.

Lemma before_app_found (t a b : pystr) :
  contains t a = true -> before t (a ++ b) = before t a.
Proof.
  induction a as [|c a IH].
  - simpl. destruct t; [|discriminate]. intros _. destruct b; reflexivity.
  - intros H. change (starts_with t (c :: a) || contains t a = true) in H.
    simpl. destruct (starts_with t (c :: a)) eqn:X.
    + pose proof (starts_with_app t (c :: a) b X) as X'. simpl in X'. now rewrite X'.
    + simpl in H. destruct (starts_with t (c :: a ++ b)) eqn:Y.
      * exfalso. change (c :: a ++ b) with ((c :: a) ++ b) in Y.
        destruct (starts_with_app_split t (c :: a) b Y X) as [y [Hy [Ht _]]].
        apply contains_occurs in H as [u [v Huv]].
        apply (f_equal (@List.length _)) in Huv. subst t.
        repeat (rewrite length_app in Huv || simpl in Huv).
        destruct y; [contradiction|]. simpl in Huv. lia.
      * now rewrite IH.
Qed.

Lemma strip_before_strip (t s : pystr) :
  solid t = true -> strip (before t (strip s)) = strip (before t s).
Proof.
  intros Ht. destruct (solid_head t Ht) as [h [tl [E Hh]]].
  destruct (lstrip_suffix s) as [w [Es Hw]].
  assert (strip (before t s) = strip (before t (lstrip s))) as ->.
  { rewrite Es at 1. subst t. rewrite (before_spaces tl w (lstrip s) h Hh Hw).
    unfold strip. now rewrite lstrip_spaces_app. }
  change (strip s) with (rstrip (lstrip s)).
  destruct (contains t (rstrip (lstrip s))) eqn:C.
  - destruct (rstrip_prefix (lstrip s)) as [w2 [E2 _]].
    rewrite E2 at 2. now rewrite (before_app_found t _ w2 C).
  - rewrite (before_not_found t _ C).
    rewrite (contains_rstrip _ _ Ht) in C. rewrite (before_not_found t _ C).
    change (rstrip (lstrip s)) with (strip s). rewrite strip_idem.
    unfold strip. now rewrite lstrip_idem.
Qed.

Lemma before_any_none (toks : list pystr) (s : pystr) :
  existsb (fun t => contains t s) toks = false -> before_any toks s = s.
Proof.
  induction s as [|c s IH]; [reflexivity|]. intros H. simpl.
  assert (existsb (fun t => starts_with t (c :: s)) toks = false
          /\ existsb (fun t => contains t s) toks = false) as [H1 H2].
  { split; apply not_true_iff_false; intros X; apply existsb_exists in X as [t [Ht X]];
      apply not_true_iff_false in H; apply H; apply existsb_exists; exists t;
      (split; [exact Ht|]);
      change (starts_with t (c :: s) || contains t s = true); rewrite X;
      [reflexivity | apply orb_true_r]. }
  rewrite H1. now rewrite IH.
Qed.

Lemma cut_at_earliest (done : list pystr) (t result : pystr) :
  solid t = true ->
  (forall u, In u done -> clear_of u t = true) ->
  cut_at (earliest_cut done result) t = earliest_cut (done ++ [t]) result.
Proof.
  intros Ht Hclear. unfold earliest_cut.
  rewrite existsb_app, (before_any_snoc done t result Hclear). simpl existsb.
  rewrite orb_false_r, cut_at_before.
  destruct (existsb (fun u => contains u result) done) eqn:E; simpl orb.
  - destruct (contains t (strip (before_any done result))) eqn:C.
    + now apply strip_before_strip.
    + rewrite (contains_strip _ _ Ht) in C. now rewrite (before_not_found _ _ C).
  - now rewrite (before_any_none done result E).
Qed.

Lemma fold_cut_at_earliest (pending done : list pystr) (result : pystr) :
  separated (done ++ pending) = true ->
  fold_left cut_at pending (earliest_cut done result) = earliest_cut (done ++ pending) result.
Proof.
  revert done; induction pending as [|t pending IH]; intros done Hsep.
  - now rewrite app_nil_r.
  - simpl fold_left.
    assert (solid t = true /\ forall u, In u done -> clear_of u t = true) as [Ht Hc].
    { unfold separated in Hsep. rewrite forallb_forall in Hsep.
      assert (In t (done ++ t :: pending)) as Hin by (apply in_or_app; right; now left).
      specialize (Hsep t Hin).
      apply andb_true_iff in Hsep as [Ht Hc]. split; [exact Ht|].
      rewrite forallb_forall in Hc. intros u Hu. apply Hc. apply in_or_app. now left. }
    rewrite (cut_at_earliest done t result Ht Hc).
    replace (done ++ t :: pending) with ((done ++ [t]) ++ pending)
      by (now rewrite <- app_assoc).
    apply IH. now rewrite <- app_assoc.
Qed.

(** The loop of [generate_text] keeps the text before the earliest
    occurrence of any of the four markers. *)
Lemma stop_at_tokens_earliest (result : pystr) :
  stop_at_tokens result = earliest_cut stop_tokens result.
Proof.
  unfold stop_at_tokens.
  change result with (earliest_cut [] result) at 1.
  now rewrite (fold_cut_at_earliest stop_tokens [] result).
Qed.

(** C3 fails on the code.  For the continuation
    "abc Answer: def User: ghi" a cut at the first marker of the priority
    list ("User:") would keep "abc Answer: def"; the loop goes on to the
    other markers and keeps "abc", the text before the earliest marker. *)
Lemma priority_cut_counterexample :
  cut_by_priority (py "abc Answer: def User: ghi") = py "abc Answer: def"
  /\ stop_at_tokens (py "abc Answer: def User: ghi") = py "abc"
  /\ generate_text (load_backend (Ok (echo_pipeline (py " abc Answer: def User: ghi"))))
       (py "Instruction: hi\nAnswer:") 200 = py "abc"
  /\ stop_at_tokens (py "abc Answer: def User: ghi")
     <> cut_by_priority (py "abc Answer: def User: ghi").
Proof. repeat split; try reflexivity. vm_compute. discriminate. Qed.

(** C3, amended.  The loop visits the four markers in the order "User:",
    "Assistant:", "Instruction:", "Answer:" and does not stop at the first
    one found: each marker present in the text kept so far cuts it at that
    marker's first occurrence (and trims it).  The net effect is a cut at
    the earliest occurrence of any of the four markers, wherever each
    stands in the list: the result is the trimmed text before that
    occurrence, or the text unchanged when no marker occurs.  None of the
    four markers is left; with "Answer:" before "User:" the text is cut at
    "Answer:". *)
Theorem stop_loop_cuts_at_earliest_marker :
  forall result : pystr,
    stop_at_tokens result
    = cut_at (cut_at (cut_at (cut_at result (py "User:")) (py "Assistant:"))
                (py "Instruction:")) (py "Answer:")
    /\ (forall r tok : pystr,
          cut_at r tok = if contains tok r then strip (before tok r) else r)
    /\ stop_at_tokens result
       = (if existsb (fun tok => contains tok result) stop_tokens
          then strip (before_any stop_tokens result)
          else result)
    /\ contains (py "User:") (stop_at_tokens result) = false
    /\ contains (py "Assistant:") (stop_at_tokens result) = false
    /\ contains (py "Instruction:") (stop_at_tokens result) = false
    /\ contains (py "Answer:") (stop_at_tokens result) = false
    /\ stop_at_tokens (py "abc Answer: def User: ghi") = py "abc".
Proof.
  intros result. split; [reflexivity|]. split; [apply cut_at_before|].
  split; [apply stop_at_tokens_earliest|].
  repeat split; try (apply stop_at_tokens_free; unfold stop_tokens; simpl; tauto).
Qed.

(** ** Results on the handlers *)

Lemma Ok_inj {A : Type} (a b : A) : Ok a = Ok b -> a = b.
Proof. intros H. now injection H. Qed.

Lemma bind_ok {A B : Type} (m : outcome A) (k : A -> outcome B) (b : B) :
  bind m k = Ok b -> exists a, m = Ok a /\ k a = Ok b.
Proof. destruct m as [a|e]; simpl; [now exists a | discriminate]. Qed.






(** *** The budget summary *)

Lemma sum_floats_plain (total c : float) (xs : list float) :
  sum_floats false total c xs = fold_left PrimFloat.add xs total.
Proof. revert total; induction xs as [|x xs IH]; intros total; simpl; [reflexivity | apply IH]. Qed.

Lemma float_sub_py_sum (compensated : bool) (income : float) (amounts : list float) :
  float_sub income (py_sum compensated amounts)
  = Ok (income - as_float (py_sum compensated amounts))%float.
Proof. destruct amounts; reflexivity. Qed.

Lemma api_budget_ok (compensated : bool) (b : backend) (data : value)
      (income : float) (total : number) (savings : float) (prompt : pystr) :
  budget_figures compensated data = Ok (income, total, savings, prompt) ->
  api_budget compensated b data
  = Ok (jsonify (py "summary")
          (budget_block income total savings ++ py "\nAI Summary:\n"
             ++ generate_text b prompt 180)).
Proof. intros H. unfold api_budget. now rewrite H. Qed.

Lemma budget_figures_inv (compensated : bool) (data : value)
      (income : float) (total : number) (savings : float) (prompt : pystr) :
  budget_figures compensated data = Ok (income, total, savings, prompt) ->
  exists txns items amounts,
    coerce_field data (py "incomeMonthly") = Ok income
    /\ dict_get data (py "transactions") (VList []) = Ok txns
    /\ py_iter txns = Ok items
    /\ map_outcome coerce_amount items = Ok amounts
    /\ total = py_sum compensated amounts
    /\ float_sub income total = Ok savings.
Proof.
  unfold budget_figures. intros H.
  apply bind_ok in H as [income' [H1 H]].
  apply bind_ok in H as [txns [H2 H]].
  apply bind_ok in H as [demographic [H3 H]].
  apply bind_ok in H as [items [H4 H]].
  apply bind_ok in H as [amounts [H5 H]].
  apply bind_ok in H as [savings' [H6 H]].
  apply bind_ok in H as [context [H7 H]].
  injection H as E1 E2 E3 _. subst income' total savings'.
  exists txns, items, amounts. repeat split; assumption.
Qed.

Lemma budget_example_figures (compensated : bool) :
  budget_figures compensated budget_example
  = Ok (5000%float, PFloat 2000%float, 3000%float,
        budget_prompt_text DEFAULT_CONTEXT (VList [VDict [(py "amount", VInt 2000)]])
          5000%float).
Proof. destruct compensated; vm_compute; reflexivity. Qed.

(** C7.  Whenever [api_budget] answers, the summary starts with the block
    built from the coerced income, the sum of the coerced amounts of the
    transactions (Total Spent) and income minus that sum (Estimated
    Savings); the generated paragraph only follows the block, so the block
    is the same whatever the backend produces.  For income 5000 and one
    amount 2000 the block reads 5000.0, 2000.0 and 3000.0. *)
Theorem budget_block_is_deterministic :
  forall (compensated : bool) (b : backend) (data body : value),
    api_budget compensated b data = Ok body ->
    (exists income txns items amounts savings prompt,
        coerce_field data (py "incomeMonthly") = Ok income
        /\ dict_get data (py "transactions") (VList []) = Ok txns
        /\ py_iter txns = Ok items
        /\ map_outcome coerce_amount items = Ok amounts
        /\ savings = (income - as_float (py_sum compensated amounts))%float
        /\ (forall b' : backend,
              api_budget compensated b' data
              = Ok (jsonify (py "summary")
                      (py "Monthly Income: ₹" ++ float_repr income
                         ++ py "\nTotal Spent: ₹" ++ number_str (py_sum compensated amounts)
                         ++ py "\nEstimated Savings: ₹" ++ float_repr savings ++ py "\n"
                         ++ py "\nAI Summary:\n" ++ generate_text b' prompt 180))))
    /\ (forall amounts : list float,
          py_sum false amounts
          = match amounts with
            | [] => PInt 0
            | _ :: _ => PFloat (fold_left PrimFloat.add amounts PrimFloat.zero)
            end)
    /\ api_budget compensated b budget_example
       = Ok (jsonify (py "summary")
               (py "Monthly Income: ₹5000.0\nTotal Spent: ₹2000.0\nEstimated Savings: ₹3000.0\n"
                  ++ py "\nAI Summary:\n"
                  ++ generate_text b
                       (budget_prompt_text DEFAULT_CONTEXT
                          (VList [VDict [(py "amount", VInt 2000)]]) 5000%float) 180)).
Proof.
  intros compensated b data body H. split; [|split].
  - unfold api_budget in H. apply bind_ok in H as [[[[income total] savings] prompt] [Hf _]].
    destruct (budget_figures_inv _ _ _ _ _ _ Hf) as [txns [items [amounts H']]].
    destruct H' as [H1 [H2 [H3 [H4 [H5 H6]]]]]. subst total.
    exists income, txns, items, amounts, savings, prompt.
    repeat split; try assumption.
    { rewrite float_sub_py_sum in H6. now apply Ok_inj in H6. }
    intros b'. rewrite (api_budget_ok _ b' _ _ _ _ _ Hf). unfold budget_block.
    now rewrite <- !app_assoc.
  - intros [|x xs]; [reflexivity|]. simpl. now rewrite sum_floats_plain.
  - rewrite (api_budget_ok _ b _ _ _ _ _ (budget_example_figures compensated)).
    replace (budget_block 5000%float (PFloat 2000%float) 3000%float)
      with (py "Monthly Income: ₹5000.0\nTotal Spent: ₹2000.0\nEstimated Savings: ₹3000.0\n")
      by (vm_compute; reflexivity).
    reflexivity.
Qed.

Lemma budget_block_is_deterministic_witness :
  api_budget false (load_backend (Ok (echo_pipeline (py " Spend less.")))) budget_example
  = Ok budget_example_body
  /\ exists income txns items amounts savings prompt,
      coerce_field budget_example (py "incomeMonthly") = Ok income
      /\ dict_get budget_example (py "transactions") (VList []) = Ok txns
      /\ py_iter txns = Ok items
      /\ map_outcome coerce_amount items = Ok amounts
      /\ savings = (income - as_float (py_sum false amounts))%float
      /\ (forall b' : backend,
            api_budget false b' budget_example
            = Ok (jsonify (py "summary")
                    (py "Monthly Income: ₹" ++ float_repr income
                       ++ py "\nTotal Spent: ₹" ++ number_str (py_sum false amounts)
                       ++ py "\nEstimated Savings: ₹" ++ float_repr savings ++ py "\n"
                       ++ py "\nAI Summary:\n" ++ generate_text b' prompt 180))).
Proof.
  assert (api_budget false (load_backend (Ok (echo_pipeline (py " Spend less.")))) budget_example
          = Ok budget_example_body) as H by (vm_compute; reflexivity).
  split; [exact H|].
  exact (proj1 (budget_block_is_deterministic false _ budget_example budget_example_body H)).
Defined.

(** *** Order of floats *)












(** *** The categories dict and its largest total *)




Lemma keys_dict_set (categories : totals) (k : pystr) (x : float) :
  map fst (dict_set categories k x)
  = if existsb (eqb k) (map fst categories) then map fst categories
    else map fst categories ++ [k].
Proof.
  induction categories as [|[k' v] rest IH]; simpl; [reflexivity|].
  destruct (eqb k k') eqn:E; simpl; [reflexivity|].
  rewrite IH. destruct (existsb (eqb k) (map fst rest)); reflexivity.
Qed.

Lemma tally_snoc (categories : totals) (obs : list (pystr * float)) (o : pystr * float) :
  tally categories (obs ++ [o]) = accumulate (tally categories obs) (fst o) (snd o).
Proof. unfold tally. now rewrite fold_left_app. Qed.


Lemma tally_keys (obs : list (pystr * float)) :
  map fst (tally [] obs) = first_seen (map fst obs).
Proof.
  induction obs as [|[k a] obs IH] using rev_ind; [reflexivity|].
  rewrite tally_snoc. unfold accumulate. rewrite keys_dict_set. simpl fst.
  unfold first_seen in *. rewrite map_app, fold_left_app. simpl.
  now rewrite IH.
Qed.


(** *** The categorizer *)

Lemma insights_step_observe (categories : totals) (t : value) :
  insights_step categories t
  = (o <- observe t ;; Ok (accumulate categories (fst o) (snd o))).
Proof.
  unfold insights_step, observe.
  destruct (dict_get t (py "desc") (VStr [])) as [raw|e]; [|reflexivity]. simpl.
  destruct (py_lower (py_or raw (VStr []))) as [desc|e]; [|reflexivity]. simpl.
  destruct (coerce_amount t) as [amt|e]; reflexivity.
Qed.

Lemma insights_loop_tally (txns : list value) (categories result : totals) :
  insights_loop categories txns = Ok result ->
  exists obs, map_outcome observe txns = Ok obs /\ result = tally categories obs.
Proof.
  revert categories; induction txns as [|t txns IH]; intros categories; simpl.
  - intros H. injection H as <-. now exists [].
  - rewrite insights_step_observe.
    destruct (observe t) as [o|e]; simpl; [|discriminate].
    intros H. apply IH in H as [obs [H1 H2]].
    exists (o :: obs). rewrite H1. now split.
Qed.



Lemma api_insights_ok (b : backend) (data : value) (categories : totals) (prompt : pystr) :
  insights_figures data = Ok (categories, prompt) ->
  api_insights b data
  = Ok (jsonify (py "insights")
          (insights_line categories ++ py "\n\nAI Suggestions:\n"
             ++ generate_text b prompt 140)).
Proof. intros H. unfold api_insights. now rewrite H. Qed.









(** *** Prompts *)


Lemma answer_text_jsonify (field text : pystr) : answer_text (jsonify field text) = text.
Proof. reflexivity. Qed.

Lemma handler_calls_generator (ep : endpoint) (compensated : bool) (b : backend)
      (data body : value) :
  handler ep compensated b data = Ok body ->
  exists p lead,
    built_prompt ep compensated data = Ok p
    /\ answer_text body = lead ++ generate_text b p (max_len_of ep).
Proof.
  destruct ep; cbn [handler built_prompt max_len_of]; intros H.
  - unfold api_chat in H. apply bind_ok in H as [p [Hp H]].
    apply Ok_inj in H. subst body.
    exists p, []. split; [exact Hp | apply answer_text_jsonify].
  - unfold api_budget in H.
    apply bind_ok in H as [[[[income total] savings] p] [Hf H]].
    apply Ok_inj in H. subst body.
    exists p, (budget_block income total savings ++ py "\nAI Summary:\n").
    rewrite Hf, answer_text_jsonify. split; [reflexivity|]. now rewrite <- app_assoc.
  - unfold api_insights in H. apply bind_ok in H as [[cats p] [Hf H]].
    apply Ok_inj in H. subst body.
    exists p, (insights_line cats ++ py "\n\nAI Suggestions:\n").
    rewrite Hf, answer_text_jsonify. split; [reflexivity|]. now rewrite <- app_assoc.
Qed.




Lemma profile_get_default_lookup :
  profile_lookup (VStr (py "default")) = Ok (Some DEFAULT_CONTEXT).
Proof. vm_compute. reflexivity. Qed.

Lemma profile_get_default : profile_get (VStr (py "default")) [] = Ok DEFAULT_CONTEXT.
Proof. vm_compute. reflexivity. Qed.




(** *** Unknown demographic keys *)

(** C2, the code at the failing input.  For the unknown key "teen" the
    chat endpoint resolves the default sentence, because it first replaces
    an unknown key by "default"; the budget and insights endpoints look the
    key up as it is, with the empty string as the fallback, so their prompt
    starts with no sentence at all.  In general a key outside the table
    gives the default sentence on the chat endpoint and the empty string on
    the other two. *)
Theorem unknown_demographic_context :
  forall (compensated : bool) (key : pystr),
    match assoc key PROFILE_CONTEXTS with
    | Some sentence =>
        chat_context (VStr key) = Ok sentence /\ profile_get (VStr key) [] = Ok sentence
    | None =>
        chat_context (VStr key) = Ok DEFAULT_CONTEXT /\ profile_get (VStr key) [] = Ok []
    end
    /\ built_prompt Chat compensated (demographic_request (py "teen"))
       = Ok (DEFAULT_CONTEXT ++ py "\nComplexity: moderate\nInstruction: \nAnswer:")
    /\ built_prompt Budget compensated (demographic_request (py "teen"))
       = Ok (py "\nGiven the following transactions: []\nIncome: 0.0\nInstruction: Write an easy-to-read budget summary and 3 suggestions to improve savings.\nAnswer:")
    /\ built_prompt Insights compensated (demographic_request (py "teen"))
       = Ok (py "\nTransactions summary: {}\nInstruction: Give 3 actionable spending insights in short sentences.\nAnswer:").
Proof.
  intros compensated key. split.
  - unfold chat_context, profile_mem, profile_get. cbn [profile_lookup bind].
    destruct (assoc key PROFILE_CONTEXTS) as [sentence|] eqn:E.
    + cbn [profile_lookup bind]. rewrite E. now split.
    + split; [|reflexivity]. apply profile_get_default.
  - repeat split; destruct compensated; vm_compute; reflexivity.
Qed.

(** *** No transactions *)

(** C10.  For an insights request without transactions the handler
    answers (status 200), and its text is the sentence "No transactions
    supplied ..." followed by the heading "AI Suggestions:" and the
    generated text; no top-category sentence appears. *)
Theorem no_transactions_sentence :
  forall (b : backend) (items : list (pystr * value)),
    no_transactions items = true ->
    exists prompt,
      api_insights b (VDict items)
      = Ok (jsonify (py "insights")
              (py "No transactions supplied — provide some transactions for insights."
                 ++ py "\n\nAI Suggestions:\n" ++ generate_text b prompt 140))
      /\ http_status (api_insights b (VDict items)) = 200%Z
      /\ built_prompt Insights false (VDict items) = Ok prompt.
Proof.
  intros b items H. unfold no_transactions in H. apply andb_true_iff in H as [Ht Hd].
  assert (exists context, insights_figures (VDict items)
                          = Ok ([], insights_prompt_text context [])) as [context Hf].
  { unfold insights_figures, dict_get. cbn [bind].
    assert (py_iter (match assoc (py "transactions") items with
                     | Some v => v
                     | None => VList []
                     end) = Ok []) as ->.
    { destruct (assoc (py "transactions") items) as [[| | | | |[|]|]|];
        try discriminate; reflexivity. }
    cbn [bind insights_loop]. unfold profile_get.
    destruct (assoc (py "demographic") items) as [d|].
    - destruct d; try discriminate; cbn [profile_lookup bind]; eexists; reflexivity.
    - rewrite profile_get_default_lookup. cbn [bind]. eexists; reflexivity. }
  exists (insights_prompt_text context []).
  rewrite (api_insights_ok b _ _ _ Hf). split; [reflexivity|]. split; [reflexivity|].
  cbn [built_prompt]. now rewrite Hf.
Qed.

Lemma no_transactions_sentence_witness :
  no_transactions [(py "demographic", VStr (py "retired"))] = true
  /\ exists prompt,
      api_insights (load_backend (Raise (OtherError [])))
        (VDict [(py "demographic", VStr (py "retired"))])
      = Ok (jsonify (py "insights")
              (py "No transactions supplied — provide some transactions for insights."
                 ++ py "\n\nAI Suggestions:\n"
                 ++ generate_text (load_backend (Raise (OtherError []))) prompt 140))
      /\ http_status (api_insights (load_backend (Raise (OtherError [])))
                        (VDict [(py "demographic", VStr (py "retired"))])) = 200%Z
      /\ built_prompt Insights false (VDict [(py "demographic", VStr (py "retired"))])
         = Ok prompt.
Proof.
  assert (no_transactions [(py "demographic", VStr (py "retired"))] = true) as H
      by (vm_compute; reflexivity).
  split; [exact H|].
  exact (no_transactions_sentence (load_backend (Raise (OtherError []))) _ H).
Defined.

(** * Further properties *)

(** ** Lines kept by [clean_text] *)

Lemma subseq_refl {A : Type} (l : list A) : subseq l l.
Proof. induction l; constructor; assumption. Qed.

Lemma subseq_snoc_skip {A : Type} (l1 l2 : list A) (x : A) :
  subseq l1 l2 -> subseq l1 (l2 ++ [x]).
Proof.
  induction 1; simpl.
  - apply subseq_skip, subseq_nil.
  - now apply subseq_skip.
  - now apply subseq_keep.
Qed.

Lemma subseq_snoc_keep {A : Type} (l1 l2 : list A) (x : A) :
  subseq l1 l2 -> subseq (l1 ++ [x]) (l2 ++ [x]).
Proof.
  induction 1; simpl.
  - apply subseq_keep, subseq_nil.
  - now apply subseq_skip.
  - now apply subseq_keep.
Qed.

Lemma fold_clean_step_subseq (lines final seen : list pystr) :
  subseq final seen -> subseq (fold_left clean_step lines final) (seen ++ lines).
Proof.
  revert final seen; induction lines as [|l lines IH]; intros final seen H; simpl.
  - now rewrite app_nil_r.
  - replace (seen ++ l :: lines) with ((seen ++ [l]) ++ lines)
      by (now rewrite <- app_assoc).
    apply IH. unfold clean_step. destruct (last_line final) as [prev|].
    + destruct (negb (eqb (strip l) (strip prev)));
        [now apply subseq_snoc_keep | now apply subseq_snoc_skip].
    + now apply subseq_snoc_keep.
Qed.

Lemma fold_clean_step_head (lines final : list pystr) (x : pystr) :
  hd_error final = Some x -> hd_error (fold_left clean_step lines final) = Some x.
Proof.
  revert final; induction lines as [|l lines IH]; intros final H; simpl; [exact H|].
  apply IH. unfold clean_step. destruct (last_line final) as [prev|].
  - destruct (negb (eqb (strip l) (strip prev))); [|exact H].
    destruct final; [discriminate | exact H].
  - destruct final; [discriminate | exact H].
Qed.

(** X1.  The loop of [clean_text] only drops lines: the lines it keeps are
    lines of the input, in their order, and the first line is always
    kept. *)
Theorem dedup_lines_is_subsequence :
  forall lines : list pystr,
    subseq (dedup_lines lines) lines
    /\ hd_error (dedup_lines lines) = hd_error lines.
Proof.
  intros lines. split.
  - apply (fold_clean_step_subseq lines [] []). constructor.
  - destruct lines as [|x lines]; [reflexivity|].
    unfold dedup_lines. simpl fold_left.
    now apply fold_clean_step_head.
Qed.

(** *** Splitting into lines and joining them again *)

Lemma split_nl_cons (c : codepoint) (s : pystr) :
  split NL (c :: s)
  = if (c =? 10)%N then [] :: split NL s
    else match split NL s with
         | piece :: rest => (c :: piece) :: rest
         | [] => [[c]]
         end.
Proof.
  unfold split. change NL with [10%N].
  cbn [split_go starts_with List.length Nat.sub]. rewrite andb_true_r, N.eqb_sym.
  destruct (c =? 10)%N; reflexivity.
Qed.

Lemma join_split (s : pystr) : join NL (split NL s) = s.
Proof.
  induction s as [|c s IH]; [reflexivity|].
  rewrite split_nl_cons. destruct (c =? 10)%N eqn:E.
  - apply N.eqb_eq in E. subst c.
    destruct (split NL s) as [|p rest] eqn:Es; [now apply split_go_nonempty in Es|].
    change (join NL ([] :: p :: rest)) with ([] ++ NL ++ join NL (p :: rest)).
    now rewrite IH.
  - destruct (split NL s) as [|p rest] eqn:Es; [now apply split_go_nonempty in Es|].
    destruct rest as [|q rest].
    + simpl in *. now rewrite IH.
    + change (join NL ((c :: p) :: q :: rest)) with (c :: (p ++ NL ++ join NL (q :: rest))).
      change (join NL (p :: q :: rest)) with (p ++ NL ++ join NL (q :: rest)) in IH.
      now rewrite IH.
Qed.

Lemma no_repeats_tail (x : pystr) (l : list pystr) :
  no_repeats (x :: l) = true -> no_repeats l = true.
Proof.
  destruct l as [|y l]; [reflexivity|]. simpl. intros H.
  now apply andb_true_iff in H as [_ H].
Qed.

Lemma eqb_sym (a b : pystr) : eqb a b = eqb b a.
Proof.
  destruct (eqb a b) eqn:E.
  - apply eqb_eq in E. subst. now rewrite eqb_refl.
  - apply eqb_neq in E. symmetry. apply eqb_neq. congruence.
Qed.

(** Where the kept lines [final] meet the next line [x] of a list without
    repeats, the two differ after trimming. *)
Lemma no_repeats_junction (final : list pystr) (x prev : pystr) (l : list pystr) :
  no_repeats (final ++ x :: l) = true -> last_line final = Some prev ->
  eqb (strip x) (strip prev) = false.
Proof.
  induction final as [|a final IH]; [discriminate|].
  intros Hn Hl. destruct final as [|b final].
  - simpl in Hl. injection Hl as ->. simpl in Hn.
    apply andb_true_iff in Hn as [Hn _]. apply negb_true_iff in Hn.
    now rewrite eqb_sym.
  - apply IH; [|exact Hl]. now apply no_repeats_tail in Hn.
Qed.

Lemma fold_clean_step_fixed (lines final : list pystr) :
  no_repeats (final ++ lines) = true -> fold_left clean_step lines final = final ++ lines.
Proof.
  revert final; induction lines as [|x lines IH]; intros final H; simpl.
  - now rewrite app_nil_r.
  - assert (clean_step final x = final ++ [x]) as ->.
    { unfold clean_step. destruct (last_line final) as [prev|] eqn:E; [|reflexivity].
      now rewrite (no_repeats_junction final x prev lines H E). }
    rewrite IH; rewrite <- app_assoc; [reflexivity | exact H].
Qed.

Lemma dedup_lines_fixed (lines : list pystr) :
  no_repeats lines = true -> dedup_lines lines = lines.
Proof. intros H. now apply (fold_clean_step_fixed lines []). Qed.

Lemma clean_text_without_repeats_lemma (text : pystr) :
  no_repeats (split NL text) = true -> clean_text text = strip text.
Proof. intros H. unfold clean_text. now rewrite (dedup_lines_fixed _ H), join_split. Qed.

(** X2.  On a text none of whose lines repeats the line before it (compared
    trimmed), [clean_text] only trims the ends of the text. *)
Theorem clean_text_without_repeats :
  forall text : pystr,
    no_repeats (split NL text) = true -> clean_text text = strip text.
Proof. exact clean_text_without_repeats_lemma. Qed.

Lemma clean_text_without_repeats_witness :
  no_repeats (split NL (py "  Save more.\nSpend less.\nSave more.\n")) = true
  /\ clean_text (py "  Save more.\nSpend less.\nSave more.\n")
     = strip (py "  Save more.\nSpend less.\nSave more.\n").
Proof.
  assert (no_repeats (split NL (py "  Save more.\nSpend less.\nSave more.\n")) = true) as H
      by (vm_compute; reflexivity).
  split; [exact H|]. exact (clean_text_without_repeats _ H).
Defined.

(** *** The output is never longer than the input *)

Lemma occurs_length (m s : pystr) : occurs m s -> (List.length m <= List.length s)%nat.
Proof. intros [a [b ->]]. rewrite !length_app. lia. Qed.

Lemma subseq_nil_inv {A : Type} (l : list A) : subseq l [] -> l = [].
Proof. inversion 1. reflexivity. Qed.

Lemma join_subseq_length (sep : pystr) (l1 l2 : list pystr) :
  subseq l1 l2 -> (List.length (join sep l1) <= List.length (join sep l2))%nat.
Proof.
  induction 1 as [|x l1 l2 H IH|x l1 l2 H IH].
  - simpl. lia.
  - destruct l2 as [|y l2].
    + apply subseq_nil_inv in H. subst. simpl. lia.
    + change (join sep (x :: y :: l2)) with (x ++ sep ++ join sep (y :: l2)).
      rewrite !length_app. lia.
  - destruct l1 as [|a l1].
    + destruct l2 as [|y l2]; [simpl; lia|].
      change (join sep (x :: y :: l2)) with (x ++ sep ++ join sep (y :: l2)).
      simpl. rewrite !length_app. lia.
    + destruct l2 as [|y l2]; [inversion H|].
      change (join sep (x :: a :: l1)) with (x ++ sep ++ join sep (a :: l1)).
      change (join sep (x :: y :: l2)) with (x ++ sep ++ join sep (y :: l2)).
      rewrite !length_app. lia.
Qed.

Lemma clean_text_length (text : pystr) :
  (List.length (clean_text text) <= List.length text)%nat.
Proof.
  unfold clean_text.
  pose proof (occurs_length _ _ (strip_occurs (join NL (dedup_lines (split NL text))))) as H1.
  assert (List.length (join NL (dedup_lines (split NL text))) <= List.length text)%nat as H2.
  { rewrite <- (join_split text) at 2. apply join_subseq_length.
    apply (fold_clean_step_subseq (split NL text) [] [] subseq_nil). }
  lia.
Qed.

Lemma cleaned_length (prompt generated : pystr) :
  (List.length (cleaned prompt generated)
   <= List.length generated - List.length prompt)%nat.
Proof.
  unfold cleaned.
  pose proof (clean_text_length
                (stop_at_tokens (strip (skipn (List.length prompt) generated)))) as H1.
  pose proof (occurs_length _ _
                (fold_cut_at_occurs stop_tokens
                   (strip (skipn (List.length prompt) generated)))) as H2.
  pose proof (occurs_length _ _ (strip_occurs (skipn (List.length prompt) generated))) as H3.
  rewrite length_skipn in H3. unfold stop_at_tokens in *. lia.
Qed.

(** X3.  When the pipeline answers, the text [generate_text] returns is
    never longer than what the pipeline wrote after the first
    [len(prompt)] characters; when the pipeline wrote no more than that,
    the text is empty. *)
Theorem generate_text_not_longer_than_continuation :
  forall (p : pipeline) (prompt generated : pystr) (max_len : Z),
    run p prompt max_len = Ok generated ->
    (List.length (generate_text (load_backend (Ok p)) prompt max_len)
     <= List.length generated - List.length prompt)%nat
    /\ ((List.length generated <= List.length prompt)%nat ->
        generate_text (load_backend (Ok p)) prompt max_len = []).
Proof.
  intros p prompt generated max_len H.
  assert (generate_text (load_backend (Ok p)) prompt max_len = cleaned prompt generated) as ->
      by (unfold generate_text; simpl; now rewrite H).
  pose proof (cleaned_length prompt generated) as Hl.
  split; [exact Hl|]. intros Hs.
  destruct (cleaned prompt generated); [reflexivity | simpl in Hl; lia].
Qed.

Lemma generate_text_not_longer_than_continuation_witness :
  run (echo_pipeline (py " Save more. User: ok")) (py "Instruction: hi\nAnswer:") 200
  = Ok (py "Instruction: hi\nAnswer: Save more. User: ok")
  /\ (List.length (generate_text (load_backend (Ok (echo_pipeline (py " Save more. User: ok"))))
                     (py "Instruction: hi\nAnswer:") 200)
      <= List.length (py "Instruction: hi\nAnswer: Save more. User: ok")
         - List.length (py "Instruction: hi\nAnswer:"))%nat.
Proof.
  assert (run (echo_pipeline (py " Save more. User: ok")) (py "Instruction: hi\nAnswer:") 200
          = Ok (py "Instruction: hi\nAnswer: Save more. User: ok")) as H
      by (vm_compute; reflexivity).
  split; [exact H|].
  exact (proj1 (generate_text_not_longer_than_continuation _ _ _ _ H)).
Defined.

(** *** Cleaning twice *)

Lemma split_nonempty (s : pystr) : split NL s <> [].
Proof. apply split_go_nonempty. Qed.

Lemma split_snoc (s : pystr) (c : codepoint) :
  split NL (s ++ [c])
  = if (c =? 10)%N then split NL s ++ [[]]
    else removelast (split NL s) ++ [last (split NL s) [] ++ [c]].
Proof.
  induction s as [|x s IH].
  - simpl app. rewrite split_nl_cons. destruct (c =? 10)%N; reflexivity.
  - change ((x :: s) ++ [c]) with (x :: s ++ [c]). rewrite !split_nl_cons, IH.
    destruct (split NL s) as [|p rest] eqn:Es; [now apply split_nonempty in Es|].
    destruct (x =? 10)%N; destruct (c =? 10)%N; try reflexivity;
      destruct rest; reflexivity.
Qed.

Lemma lstrip_snoc_space (l : pystr) (c : codepoint) :
  isspace c = true ->
  lstrip (l ++ [c]) = match lstrip l with [] => [] | _ :: _ => lstrip l ++ [c] end.
Proof.
  intros Hc. induction l as [|x l IH]; simpl.
  - now rewrite Hc.
  - destruct (isspace x); [exact IH | reflexivity].
Qed.

Lemma rstrip_snoc_space (l : pystr) (c : codepoint) :
  isspace c = true -> rstrip (l ++ [c]) = rstrip l.
Proof. intros Hc. unfold rstrip. rewrite rev_app_distr. simpl. now rewrite Hc. Qed.

Lemma strip_snoc_space (l : pystr) (c : codepoint) :
  isspace c = true -> strip (l ++ [c]) = strip l.
Proof.
  intros Hc. unfold strip. rewrite (lstrip_snoc_space l c Hc).
  destruct (lstrip l) as [|y t]; [reflexivity|]. now apply rstrip_snoc_space.
Qed.

Lemma strip_cons_space (l : pystr) (c : codepoint) :
  isspace c = true -> strip (c :: l) = strip l.
Proof. intros Hc. unfold strip. simpl. now rewrite Hc. Qed.

Lemma no_repeats_strip_eq (l1 l2 : list pystr) :
  map strip l1 = map strip l2 -> no_repeats l1 = no_repeats l2.
Proof.
  revert l2; induction l1 as [|x l1 IH]; intros [|y l2] H; try discriminate; [reflexivity|].
  simpl in H. injection H as Hx H.
  destruct l1 as [|x' l1]; destruct l2 as [|y' l2]; try discriminate; [reflexivity|].
  change (negb (eqb (strip x) (strip x')) && no_repeats (x' :: l1)
          = negb (eqb (strip y) (strip y')) && no_repeats (y' :: l2)).
  rewrite (IH (y' :: l2) H). simpl in H. injection H as Hx' _. now rewrite Hx, Hx'.
Qed.

Lemma no_repeats_prefix (l t : list pystr) :
  no_repeats (l ++ t) = true -> no_repeats l = true.
Proof.
  induction l as [|x l IH]; [reflexivity|]. intros H.
  destruct l as [|y l]; [reflexivity|].
  change (negb (eqb (strip x) (strip y)) && no_repeats ((y :: l) ++ t) = true) in H.
  apply andb_true_iff in H as [H1 H2].
  change (negb (eqb (strip x) (strip y)) && no_repeats (y :: l) = true).
  now rewrite H1, (IH H2).
Qed.

Lemma drop_space_head (c : codepoint) (s : pystr) :
  isspace c = true -> no_repeats (split NL (c :: s)) = true -> no_repeats (split NL s) = true.
Proof.
  intros Hc. rewrite split_nl_cons. destruct (c =? 10)%N.
  - apply no_repeats_tail.
  - destruct (split NL s) as [|p rest] eqn:Es; [now apply split_nonempty in Es|].
    intros H. rewrite <- H. apply no_repeats_strip_eq. simpl.
    now rewrite (strip_cons_space p c Hc).
Qed.

Lemma drop_space_last (c : codepoint) (s : pystr) :
  isspace c = true -> no_repeats (split NL (s ++ [c])) = true -> no_repeats (split NL s) = true.
Proof.
  intros Hc. rewrite split_snoc. destruct (c =? 10)%N.
  - apply no_repeats_prefix.
  - intros H. rewrite <- H. apply no_repeats_strip_eq.
    rewrite (app_removelast_last [] (split_nonempty s)) at 1.
    rewrite !map_app. simpl. now rewrite (strip_snoc_space _ c Hc).
Qed.

Lemma drop_spaces_head (w s : pystr) :
  forallb isspace w = true ->
  no_repeats (split NL (w ++ s)) = true -> no_repeats (split NL s) = true.
Proof.
  induction w as [|c w IH]; [intros _ H; exact H|].
  simpl. intros Hw H. apply andb_true_iff in Hw as [Hc Hw].
  apply IH; [exact Hw|]. now apply (drop_space_head c).
Qed.

Lemma drop_spaces_last (w s : pystr) :
  forallb isspace w = true ->
  no_repeats (split NL (s ++ w)) = true -> no_repeats (split NL s) = true.
Proof.
  induction w as [|c w IH] using rev_ind; [intros _ H; now rewrite app_nil_r in H|].
  rewrite forallb_app. simpl. intros Hw H.
  apply andb_true_iff in Hw as [Hw Hc]. apply andb_true_iff in Hc as [Hc _].
  apply IH; [exact Hw|]. rewrite app_assoc in H. now apply (drop_space_last c).
Qed.

(** Trimming a text leaves its lines without repeats if they were so. *)
Lemma strip_no_repeats (s : pystr) :
  no_repeats (split NL s) = true -> no_repeats (split NL (strip s)) = true.
Proof.
  intros H. destruct (strip_middle s) as [w1 [w2 [E [H1 H2]]]].
  rewrite E in H. apply drop_spaces_head in H; [|exact H1].
  now apply drop_spaces_last in H.
Qed.

Lemma split_line (x : pystr) : ~ In 10%N x -> split NL x = [x].
Proof.
  induction x as [|c x IH]; [reflexivity|]. intros H.
  rewrite split_nl_cons. destruct (c =? 10)%N eqn:E.
  - apply N.eqb_eq in E. subst. exfalso. apply H. now left.
  - rewrite IH; [reflexivity|]. intros Hin. apply H. now right.
Qed.

Lemma split_app_nl (x r : pystr) :
  ~ In 10%N x -> split NL (x ++ 10%N :: r) = x :: split NL r.
Proof.
  induction x as [|c x IH]; intros H.
  - simpl app. now rewrite split_nl_cons.
  - change ((c :: x) ++ 10%N :: r) with (c :: x ++ 10%N :: r).
    rewrite split_nl_cons. destruct (c =? 10)%N eqn:E.
    + apply N.eqb_eq in E. subst. exfalso. apply H. now left.
    + rewrite IH; [reflexivity|]. intros Hin. apply H. now right.
Qed.

Lemma split_pieces_no_nl (s p : pystr) : In p (split NL s) -> ~ In 10%N p.
Proof.
  revert p; induction s as [|c s IH]; intros p.
  - intros [<- | []] [].
  - rewrite split_nl_cons. destruct (c =? 10)%N eqn:E.
    + intros [<- | H]; [intros [] | now apply IH].
    + destruct (split NL s) as [|q rest] eqn:Es; [now apply split_nonempty in Es|].
      intros [<- | H].
      * intros [Hc | Hq]; [subst; now rewrite N.eqb_refl in E|].
        apply (IH q); [now left | exact Hq].
      * apply IH. now right.
Qed.

(** Joining lines and splitting the text again gives the lines back. *)
Lemma split_join (l : list pystr) :
  l <> [] -> (forall p, In p l -> ~ In 10%N p) -> split NL (join NL l) = l.
Proof.
  induction l as [|x l IH]; [contradiction|]. intros _ H.
  destruct l as [|y l].
  - simpl. apply split_line. apply H. now left.
  - change (join NL (x :: y :: l)) with (x ++ 10%N :: join NL (y :: l)).
    rewrite split_app_nl; [|apply H; now left].
    rewrite IH; [reflexivity | discriminate | intros p Hp; apply H; now right].
Qed.

Lemma dedup_lines_nonempty (lines : list pystr) : lines <> [] -> dedup_lines lines <> [].
Proof.
  destruct lines as [|x lines]; [contradiction|]. intros _ H.
  pose proof (fold_clean_step_head lines [x] x eq_refl) as Hh.
  change (fold_left clean_step lines [x] = []) in H. rewrite H in Hh. discriminate.
Qed.

(** The lines of a cleaned text have no repeats. *)
Lemma clean_text_no_repeats (text : pystr) :
  no_repeats (split NL (clean_text text)) = true.
Proof.
  unfold clean_text. apply strip_no_repeats. rewrite split_join.
  - now apply fold_clean_step_no_repeats.
  - apply dedup_lines_nonempty, split_nonempty.
  - intros p Hp. apply dedup_lines_incl in Hp. now apply split_pieces_no_nl in Hp.
Qed.

Lemma clean_text_idem (text : pystr) : clean_text (clean_text text) = clean_text text.
Proof.
  unfold clean_text at 1.
  rewrite (dedup_lines_fixed _ (clean_text_no_repeats text)), join_split.
  unfold clean_text. apply strip_idem.
Qed.

(** X4.  Cleaning a cleaned text changes nothing, and no line of a cleaned
    text repeats the line before it. *)
Theorem clean_text_is_idempotent :
  forall text : pystr,
    clean_text (clean_text text) = clean_text text
    /\ no_repeats (split NL (clean_text text)) = true.
Proof. intros text. split; [apply clean_text_idem | apply clean_text_no_repeats]. Qed.

(** ** What [generate_text] returns *)

Lemma fallback_free (tok : pystr) : In tok stop_tokens -> contains tok FALLBACK = false.
Proof.
  unfold stop_tokens. simpl.
  intros [<- | [<- | [<- | [<- | []]]]]; vm_compute; reflexivity.
Qed.

Lemma generate_text_free (b : backend) (prompt : pystr) (max_len : Z) (tok : pystr) :
  In tok stop_tokens -> contains tok (generate_text b prompt max_len) = false.
Proof.
  intros Hin. destruct (generate_text_cases b prompt max_len) as [-> | [generated ->]].
  - now apply fallback_free.
  - now apply cleaned_free.
Qed.

(** X5.  Whatever the backend does, the text [generate_text] returns holds
    none of the markers "User:", "Assistant:" and "Answer:". *)
Theorem generate_text_never_contains_role_markers :
  forall (b : backend) (prompt : pystr) (max_len : Z),
    contains (py "User:") (generate_text b prompt max_len) = false
    /\ contains (py "Assistant:") (generate_text b prompt max_len) = false
    /\ contains (py "Answer:") (generate_text b prompt max_len) = false.
Proof.
  intros b prompt max_len.
  repeat split; apply generate_text_free; unfold stop_tokens; simpl; tauto.
Qed.

Lemma strip_last (s : pystr) :
  match rev (strip s) with [] => True | c :: _ => isspace c = false end.
Proof. unfold strip, rstrip. rewrite rev_involutive. apply lstrip_head. Qed.

(** X6.  The text [generate_text] returns is trimmed: it neither starts nor
    ends with white space. *)
Theorem generate_text_is_trimmed :
  forall (b : backend) (prompt : pystr) (max_len : Z),
    strip (generate_text b prompt max_len) = generate_text b prompt max_len
    /\ match generate_text b prompt max_len with
       | [] => True
       | c :: _ => isspace c = false
       end
    /\ match rev (generate_text b prompt max_len) with
       | [] => True
       | c :: _ => isspace c = false
       end.
Proof.
  intros b prompt max_len.
  destruct (generate_text_cases b prompt max_len) as [-> | [generated ->]].
  - repeat split; vm_compute; reflexivity.
  - unfold cleaned, clean_text.
    split; [apply strip_idem | split; [apply strip_head | apply strip_last]].
Qed.

Lemma stop_at_tokens_absent (result : pystr) :
  existsb (fun tok => contains tok result) stop_tokens = false ->
  stop_at_tokens result = result.
Proof. intros H. rewrite stop_at_tokens_earliest. unfold earliest_cut. now rewrite H. Qed.

Lemma stop_tokens_absent (result : pystr) :
  (forall tok, In tok stop_tokens -> contains tok result = false) ->
  existsb (fun tok => contains tok result) stop_tokens = false.
Proof.
  intros H. apply not_true_iff_false. intros X.
  apply existsb_exists in X as [tok [Hin Hc]]. rewrite (H tok Hin) in Hc. discriminate.
Qed.

Lemma cleaned_fixed (out : pystr) :
  (forall tok, In tok stop_tokens -> contains tok out = false) ->
  strip out = out -> clean_text out = out -> cleaned [] out = out.
Proof.
  intros Hfree Hstrip Hclean. unfold cleaned. simpl skipn.
  now rewrite Hstrip, (stop_at_tokens_absent out (stop_tokens_absent out Hfree)).
Qed.

(** X7.  The post-processing has nothing left to do on its own output: a
    text [generate_text] returned goes through trimming, the stop loop and
    [clean_text] unchanged, and the stop loop run twice cuts no more than
    run once. *)
Theorem generate_text_output_is_stable :
  forall (b : backend) (prompt : pystr) (max_len : Z) (result : pystr),
    cleaned [] (generate_text b prompt max_len) = generate_text b prompt max_len
    /\ stop_at_tokens (stop_at_tokens result) = stop_at_tokens result.
Proof.
  intros b prompt max_len result. split.
  - destruct (generate_text_cases b prompt max_len) as [-> | [generated ->]].
    + vm_compute. reflexivity.
    + apply cleaned_fixed.
      * intros tok Hin. now apply cleaned_free.
      * unfold cleaned, clean_text. apply strip_idem.
      * unfold cleaned. apply clean_text_idem.
  - apply stop_at_tokens_absent, stop_tokens_absent.
    intros tok Hin. now apply stop_at_tokens_free.
Qed.

Lemma generate_text_loaded (p : pipeline) (prompt : pystr) (max_len : Z) :
  generate_text (load_backend (Ok p)) prompt max_len
  = match run p prompt max_len with
    | Ok generated => cleaned prompt generated
    | Raise _ => FALLBACK
    end.
Proof. reflexivity. Qed.

(** X8.  When the pipeline answers the prompt followed by a continuation
    that holds no marker and no line repeating the line before it,
    [generate_text] returns the continuation, trimmed. *)
Theorem clean_continuation_is_returned :
  forall (p : pipeline) (prompt continuation : pystr) (max_len : Z),
    run p prompt max_len = Ok (prompt ++ continuation) ->
    existsb (fun tok => contains tok continuation) stop_tokens = false ->
    no_repeats (split NL (strip continuation)) = true ->
    generate_text (load_backend (Ok p)) prompt max_len = strip continuation.
Proof.
  intros p prompt continuation max_len Hrun Hfree Hlines.
  rewrite generate_text_loaded, Hrun. unfold cleaned.
  rewrite skipn_app, skipn_all, Nat.sub_diag. simpl skipn. simpl app.
  rewrite stop_at_tokens_absent.
  - rewrite (clean_text_without_repeats_lemma _ Hlines). apply strip_idem.
  - apply stop_tokens_absent. intros tok Hin. apply contains_false. intros H.
    apply (fun H => occurs_trans _ _ _ H (strip_occurs _)) in H.
    apply contains_occurs in H.
    assert (existsb (fun tok => contains tok continuation) stop_tokens = true) as X
        by (apply existsb_exists; now exists tok).
    congruence.
Qed.

Lemma clean_continuation_is_returned_witness :
  run (echo_pipeline (py " Save more.\nSpend less.\n"))
    (py "Instruction: hi\nAnswer:") 200
  = Ok (py "Instruction: hi\nAnswer:" ++ py " Save more.\nSpend less.\n")
  /\ existsb (fun tok => contains tok (py " Save more.\nSpend less.\n")) stop_tokens = false
  /\ no_repeats (split NL (strip (py " Save more.\nSpend less.\n"))) = true
  /\ generate_text (load_backend (Ok (echo_pipeline (py " Save more.\nSpend less.\n"))))
       (py "Instruction: hi\nAnswer:") 200
     = strip (py " Save more.\nSpend less.\n").
Proof.
  assert (run (echo_pipeline (py " Save more.\nSpend less.\n"))
            (py "Instruction: hi\nAnswer:") 200
          = Ok (py "Instruction: hi\nAnswer:" ++ py " Save more.\nSpend less.\n")) as H1
      by reflexivity.
  assert (existsb (fun tok => contains tok (py " Save more.\nSpend less.\n")) stop_tokens
          = false) as H2 by (vm_compute; reflexivity).
  assert (no_repeats (split NL (strip (py " Save more.\nSpend less.\n"))) = true) as H3
      by (vm_compute; reflexivity).
  split; [exact H1|]. split; [exact H2|]. split; [exact H3|].
  exact (clean_continuation_is_returned _ _ _ _ H1 H2 H3).
Defined.

(** ** What the handlers answer *)

Lemma handler_status_cases (ep : endpoint) (compensated : bool) (b : backend) (data : value) :
  (exists p, built_prompt ep compensated data = Ok p
             /\ exists body, handler ep compensated b data = Ok body)
  \/ (exists e, built_prompt ep compensated data = Raise e
                /\ handler ep compensated b data = Raise e).
Proof.
  destruct ep; cbn [built_prompt handler].
  - unfold api_chat. destruct (chat_prompt data) as [p|e].
    + left. exists p. split; [reflexivity|]. eexists. reflexivity.
    + right. now exists e.
  - unfold api_budget.
    destruct (budget_figures compensated data) as [[[[income total] savings] p]|e].
    + left. exists p. split; [reflexivity|]. eexists. reflexivity.
    + right. now exists e.
  - unfold api_insights. destruct (insights_figures data) as [[cats p]|e].
    + left. exists p. split; [reflexivity|]. eexists. reflexivity.
    + right. now exists e.
Qed.

(** X9.  Whether a request is answered with 200 or 500, and with which
    exception, does not depend on the generation backend: the handlers
    fail only while they read the body, before [generate_text] is
    called, and [generate_text] never raises. *)
Theorem status_does_not_depend_on_backend :
  forall (ep : endpoint) (compensated : bool) (b b' : backend) (data : value),
    http_status (handler ep compensated b data) = http_status (handler ep compensated b' data)
    /\ (forall e : exn,
          handler ep compensated b data = Raise e
          <-> handler ep compensated b' data = Raise e).
Proof.
  intros ep compensated b b' data.
  destruct (handler_status_cases ep compensated b data) as [[p [Hp [body H]]] | [e [He H]]];
    destruct (handler_status_cases ep compensated b' data)
      as [[p' [Hp' [body' H']]] | [e' [He' H']]];
    rewrite H, H'; try congruence.
  - split; [reflexivity|]. intros e. split; discriminate.
  - assert (e = e') by congruence. subst e'.
    split; [reflexivity|]. intros e0. split; exact (fun X => X).
Qed.

Lemma generate_text_unloaded (e : exn) (prompt : pystr) (max_len : Z) :
  generate_text (load_backend (Raise e)) prompt max_len = FALLBACK.
Proof. reflexivity. Qed.

(** X10.  When loading the pipeline failed at start-up, every request that is
    answered is answered with status 200 and a text that ends with the
    sentence "Sorry — AI backend not configured. ...". *)
Theorem unavailable_backend_gives_fallback_text :
  forall (ep : endpoint) (compensated : bool) (e : exn) (data body : value),
    handler ep compensated (load_backend (Raise e)) data = Ok body ->
    exists lead,
      answer_text body
      = lead ++ py "Sorry — AI backend not configured. Install HuggingFace/Torch or connect IBM/Granite."
      /\ http_status (handler ep compensated (load_backend (Raise e)) data) = 200%Z.
Proof.
  intros ep compensated e data body H.
  destruct (handler_calls_generator ep compensated _ data body H) as [p [lead [_ Ha]]].
  exists lead. rewrite Ha, generate_text_unloaded, H. unfold FALLBACK. split; reflexivity.
Qed.

Lemma unavailable_backend_gives_fallback_text_witness :
  handler Insights false (load_backend (Raise (OtherError []))) insights_example
  = Ok (jsonify (py "insights")
          (py "Top spending category: Rent (₹1000.00). Consider reducing it by 10%.\n\nAI Suggestions:\nSorry — AI backend not configured. Install HuggingFace/Torch or connect IBM/Granite."))
  /\ exists lead,
      answer_text
        (jsonify (py "insights")
           (py "Top spending category: Rent (₹1000.00). Consider reducing it by 10%.\n\nAI Suggestions:\nSorry — AI backend not configured. Install HuggingFace/Torch or connect IBM/Granite."))
      = lead ++ py "Sorry — AI backend not configured. Install HuggingFace/Torch or connect IBM/Granite."
      /\ http_status (handler Insights false (load_backend (Raise (OtherError []))) insights_example)
         = 200%Z.
Proof.
  assert (handler Insights false (load_backend (Raise (OtherError []))) insights_example
          = Ok (jsonify (py "insights")
                  (py "Top spending category: Rent (₹1000.00). Consider reducing it by 10%.\n\nAI Suggestions:\nSorry — AI backend not configured. Install HuggingFace/Torch or connect IBM/Granite."))) as H
      by (vm_compute; reflexivity).
  split; [exact H|].
  exact (unavailable_backend_gives_fallback_text Insights false _ _ _ H).
Defined.

(** *** The chat endpoint *)

Lemma chat_context_default : chat_context (VStr (py "default")) = Ok DEFAULT_CONTEXT.
Proof. vm_compute. reflexivity. Qed.

Lemma chat_context_total (d : value) :
  hashable d = true -> exists context, chat_context d = Ok context.
Proof.
  intros H. unfold chat_context, profile_mem.
  assert (exists found, profile_lookup d = Ok found) as [found Hl]
      by (destruct d; try discriminate; cbn [profile_lookup]; eexists; reflexivity).
  rewrite Hl. cbn [bind]. destruct found as [c|].
  - unfold profile_get. rewrite Hl. cbn [bind]. now exists c.
  - rewrite profile_get_default. now exists DEFAULT_CONTEXT.
Qed.

Lemma chat_context_unhashable (d : value) :
  hashable d = false -> chat_context d = Raise TypeError.
Proof. destruct d; try discriminate; reflexivity. Qed.

(** X11.  The chat endpoint answers 200 for every JSON object whose
    "demographic" is absent or hashable, whatever "message" and
    "complexity" are; it answers 500 when the body is not an object or
    the "demographic" is a list or an object. *)
Theorem chat_rejects_only_bad_shapes :
  forall (b : backend) (data : value),
    http_status (api_chat b data)
    = match data with
      | VDict items =>
          match assoc (py "demographic") items with
          | Some d => if hashable d then 200%Z else 500%Z
          | None => 200%Z
          end
      | _ => 500%Z
      end.
Proof.
  intros b data. unfold api_chat, chat_prompt.
  destruct data as [| | | | | |items]; try reflexivity.
  unfold dict_get. cbn [bind].
  destruct (assoc (py "demographic") items) as [d|].
  - destruct (hashable d) eqn:H.
    + destruct (chat_context_total d H) as [context ->]. reflexivity.
    + now rewrite (chat_context_unhashable d H).
  - now rewrite chat_context_default.
Qed.

(** *** A body without a demographic *)

Lemma dict_get_absent (items : list (pystr * value)) (k : pystr) (default : value) :
  assoc k items = None -> dict_get (VDict items) k default = Ok default.
Proof. intros H. unfold dict_get. now rewrite H. Qed.

Lemma default_line :
  py "Provide clear and practical personal finance advice.\n" = DEFAULT_CONTEXT ++ [10%N].
Proof. vm_compute. reflexivity. Qed.

Lemma chat_second_line : py "\nComplexity: " = 10%N :: py "Complexity: ".
Proof. vm_compute. reflexivity. Qed.

Lemma budget_second_line :
  py "\nGiven the following transactions: " = 10%N :: py "Given the following transactions: ".
Proof. vm_compute. reflexivity. Qed.

Lemma insights_second_line :
  py "\nTransactions summary: " = 10%N :: py "Transactions summary: ".
Proof. vm_compute. reflexivity. Qed.

Lemma default_line_starts (r : pystr) :
  starts_with (py "Provide clear and practical personal finance advice.\n")
    (DEFAULT_CONTEXT ++ 10%N :: r) = true.
Proof.
  rewrite default_line. apply starts_with_prefix. exists r.
  rewrite <- app_assoc. reflexivity.
Qed.

Lemma pair_fst_inj {A B : Type} (a c : A) (b d : B) : (a, b) = (c, d) -> a = c.
Proof. intros H. now injection H. Qed.

Lemma pair_snd_inj {A B : Type} (a c : A) (b d : B) : (a, b) = (c, d) -> b = d.
Proof. intros H. now injection H. Qed.

(** X12.  A body without a "demographic" field gives, on all three endpoints,
    a prompt whose first line is the default context sentence. *)
Theorem absent_demographic_gives_default_context :
  forall (ep : endpoint) (compensated : bool) (items : list (pystr * value)) (p : pystr),
    assoc (py "demographic") items = None ->
    built_prompt ep compensated (VDict items) = Ok p ->
    starts_with (py "Provide clear and practical personal finance advice.\n") p = true.
Proof.
  intros ep compensated items p Habs H.
  destruct ep; cbn [built_prompt] in H.
  - unfold chat_prompt in H.
    apply bind_ok in H as [message [_ H]]. apply bind_ok in H as [demographic [Hd H]].
    rewrite (dict_get_absent _ _ _ Habs) in Hd. apply Ok_inj in Hd. subst demographic.
    apply bind_ok in H as [complexity [_ H]]. apply bind_ok in H as [context [Hc H]].
    rewrite chat_context_default in Hc. apply Ok_inj in Hc. subst context.
    apply Ok_inj in H. subst p. unfold chat_prompt_text.
    rewrite chat_second_line, <- app_comm_cons. apply default_line_starts.
  - apply bind_ok in H as [[[[income total] savings] q] [Hf H]].
    apply Ok_inj in H. cbn [snd] in H. subst q. unfold budget_figures in Hf.
    apply bind_ok in Hf as [? [_ Hf]]. apply bind_ok in Hf as [? [_ Hf]].
    apply bind_ok in Hf as [demographic [Hd Hf]].
    rewrite (dict_get_absent _ _ _ Habs) in Hd. apply Ok_inj in Hd. subst demographic.
    apply bind_ok in Hf as [? [_ Hf]]. apply bind_ok in Hf as [? [_ Hf]].
    apply bind_ok in Hf as [? [_ Hf]]. apply bind_ok in Hf as [context [Hc Hf]].
    rewrite profile_get_default in Hc. apply Ok_inj in Hc. subst context.
    apply Ok_inj in Hf. apply pair_snd_inj in Hf. subst p.
    unfold budget_prompt_text.
    rewrite budget_second_line, <- app_comm_cons. apply default_line_starts.
  - apply bind_ok in H as [[cats q] [Hf H]].
    apply Ok_inj in H. cbn [snd] in H. subst q. unfold insights_figures in Hf.
    apply bind_ok in Hf as [? [_ Hf]].
    apply bind_ok in Hf as [demographic [Hd Hf]].
    rewrite (dict_get_absent _ _ _ Habs) in Hd. apply Ok_inj in Hd. subst demographic.
    apply bind_ok in Hf as [? [_ Hf]]. apply bind_ok in Hf as [? [_ Hf]].
    apply bind_ok in Hf as [context [Hc Hf]].
    rewrite profile_get_default in Hc. apply Ok_inj in Hc. subst context.
    apply Ok_inj in Hf. apply pair_snd_inj in Hf. subst p.
    unfold insights_prompt_text.
    rewrite insights_second_line, <- app_comm_cons. apply default_line_starts.
Qed.

Lemma absent_demographic_gives_default_context_witness :
  assoc (py "demographic") [(py "incomeMonthly", VInt 5000)] = None
  /\ built_prompt Budget false (VDict [(py "incomeMonthly", VInt 5000)])
     = Ok (py "Provide clear and practical personal finance advice.\nGiven the following transactions: []\nIncome: 5000.0\nInstruction: Write an easy-to-read budget summary and 3 suggestions to improve savings.\nAnswer:")
  /\ starts_with (py "Provide clear and practical personal finance advice.\n")
       (py "Provide clear and practical personal finance advice.\nGiven the following transactions: []\nIncome: 5000.0\nInstruction: Write an easy-to-read budget summary and 3 suggestions to improve savings.\nAnswer:")
     = true.
Proof.
  assert (assoc (py "demographic") [(py "incomeMonthly", VInt 5000)] = None) as H1
      by (vm_compute; reflexivity).
  assert (built_prompt Budget false (VDict [(py "incomeMonthly", VInt 5000)])
          = Ok (py "Provide clear and practical personal finance advice.\nGiven the following transactions: []\nIncome: 5000.0\nInstruction: Write an easy-to-read budget summary and 3 suggestions to improve savings.\nAnswer:")) as H2
      by (vm_compute; reflexivity).
  split; [exact H1|]. split; [exact H2|].
  exact (absent_demographic_gives_default_context Budget false _ _ H1 H2).
Defined.

(** *** Bodies of the wrong shape *)

(** X13.  A body that is not a JSON object (null, a boolean, a number, a
    string or an array) makes every handler raise [AttributeError] at its
    first [data.get]; the request is answered with status 500. *)
Theorem non_object_body_is_rejected :
  forall (ep : endpoint) (compensated : bool) (b : backend) (data : value),
    is_object data = false ->
    handler ep compensated b data = Raise AttributeError
    /\ http_status (handler ep compensated b data) = 500%Z.
Proof.
  intros ep compensated b data H.
  assert (handler ep compensated b data = Raise AttributeError) as ->
      by (destruct data; try discriminate; destruct ep; reflexivity).
  now split.
Qed.

Lemma non_object_body_is_rejected_witness :
  is_object (VList [VInt 1]) = false
  /\ handler Chat false (load_backend (Raise (OtherError []))) (VList [VInt 1])
     = Raise AttributeError
  /\ http_status (handler Chat false (load_backend (Raise (OtherError []))) (VList [VInt 1]))
     = 500%Z.
Proof.
  assert (is_object (VList [VInt 1]) = false) as H by reflexivity.
  split; [exact H|].
  exact (non_object_body_is_rejected Chat false _ _ H).
Defined.

(** ** The categories dict *)

Lemma categorize_label (desc : pystr) : In (categorize desc) LABELS.
Proof.
  unfold categorize, LABELS. cbn [In].
  destruct (any_in [py "rent"; py "home"] desc); [left; reflexivity|].
  destruct (any_in [py "food"; py "dine"; py "restaurant"; py "cafe"] desc);
    [right; left; reflexivity|].
  destruct (any_in [py "grocery"; py "supermarket"] desc); [right; right; left; reflexivity|].
  destruct (any_in [py "tax"; py "income tax"] desc); [right; right; right; left; reflexivity|].
  right; right; right; right; left; reflexivity.
Qed.

Lemma observe_label (t : value) (o : pystr * float) :
  observe t = Ok o -> In (fst o) LABELS.
Proof.
  unfold observe. intros H.
  apply bind_ok in H as [raw [_ H]]. apply bind_ok in H as [desc [_ H]].
  apply bind_ok in H as [amt [_ H]]. apply Ok_inj in H. subst o.
  apply categorize_label.
Qed.

Lemma map_outcome_forall {A B : Type} (f : A -> outcome B) (P : B -> Prop) (l : list A)
      (r : list B) :
  (forall a b, f a = Ok b -> P b) -> map_outcome f l = Ok r -> Forall P r.
Proof.
  intros Hf. revert r; induction l as [|a l IH]; intros r H; cbn [map_outcome] in H.
  - apply Ok_inj in H. subst r. constructor.
  - apply bind_ok in H as [b [Hb H]]. apply bind_ok in H as [bs [Hbs H]].
    apply Ok_inj in H. subst r. constructor; [exact (Hf a b Hb) | now apply IH].
Qed.

Lemma existsb_eqb_in (c : pystr) (seen : list pystr) :
  existsb (eqb c) seen = true <-> In c seen.
Proof.
  rewrite existsb_exists. split.
  - intros [x [Hx E]]. apply eqb_eq in E. now subst x.
  - intros H. exists c. split; [exact H | apply eqb_refl].
Qed.

Lemma seen_fold (cs seen : list pystr) :
  NoDup seen ->
  NoDup (fold_left (fun seen c => if existsb (eqb c) seen then seen else seen ++ [c]) cs seen)
  /\ incl (fold_left (fun seen c => if existsb (eqb c) seen then seen else seen ++ [c]) cs seen)
       (seen ++ cs).
Proof.
  revert seen; induction cs as [|c cs IH]; intros seen Hn; cbn [fold_left].
  - split; [exact Hn | rewrite app_nil_r; apply incl_refl].
  - destruct (existsb (eqb c) seen) eqn:E.
    + destruct (IH seen Hn) as [H1 H2]. split; [exact H1|].
      intros x Hx. apply H2 in Hx. apply in_app_iff in Hx as [Hx|Hx];
        apply in_app_iff; [now left | right; now right].
    + assert (NoDup (seen ++ [c])) as Hn'.
      { apply NoDup_app; [exact Hn | repeat constructor; intros [] |].
        intros x Hx [<-|[]]. apply existsb_eqb_in in Hx. congruence. }
      destruct (IH (seen ++ [c]) Hn') as [H1 H2]. split; [exact H1|].
      intros x Hx. apply H2 in Hx. rewrite <- app_assoc in Hx. exact Hx.
Qed.

Lemma first_seen_nodup (cs : list pystr) : NoDup (first_seen cs).
Proof. apply (seen_fold cs []). constructor. Qed.

Lemma first_seen_incl (cs : list pystr) : incl (first_seen cs) cs.
Proof. apply (seen_fold cs []). constructor. Qed.

Lemma insights_loop_keys (txns : list value) (cats : totals) :
  insights_loop [] txns = Ok cats ->
  NoDup (map fst cats) /\ incl (map fst cats) LABELS.
Proof.
  intros H. apply insights_loop_tally in H as [obs [Ho ->]].
  rewrite tally_keys. split; [apply first_seen_nodup|].
  intros c Hc. apply first_seen_incl in Hc. apply in_map_iff in Hc as [o [<- Ho']].
  pose proof (map_outcome_forall observe (fun o => In (fst o) LABELS) txns obs observe_label Ho)
    as Hall.
  rewrite Forall_forall in Hall. now apply Hall.
Qed.

(** X14.  The categories dict of [api_insights] has no key twice, all its
    keys are among the five labels "Rent", "Dining", "Grocery", "Taxes"
    and "Other", and so it has at most five entries. *)
Theorem categories_are_distinct_known_labels :
  forall (txns : list value) (cats : totals),
    insights_loop [] txns = Ok cats ->
    NoDup (map fst cats)
    /\ (forall c : pystr, In c (map fst cats) -> In c LABELS)
    /\ (List.length cats <= 5)%nat.
Proof.
  intros txns cats H. destruct (insights_loop_keys txns cats H) as [Hn Hi].
  split; [exact Hn|]. split; [exact Hi|].
  rewrite <- (length_map fst cats).
  exact (NoDup_incl_length Hn Hi).
Qed.

Lemma categories_are_distinct_known_labels_witness :
  insights_loop [] insights_example_txns = Ok insights_example_totals
  /\ NoDup (map fst insights_example_totals)
  /\ (forall c : pystr, In c (map fst insights_example_totals) -> In c LABELS)
  /\ (List.length insights_example_totals <= 5)%nat.
Proof.
  assert (insights_loop [] insights_example_txns = Ok insights_example_totals) as H
      by (vm_compute; reflexivity).
  split; [exact H|].
  exact (categories_are_distinct_known_labels _ _ H).
Defined.

(** ** The keyword list of the tax rule *)

Lemma income_tax_text : py "income tax" = py "income " ++ py "tax".
Proof. vm_compute. reflexivity. Qed.

Lemma income_tax_has_tax (desc : pystr) :
  contains (py "income tax") desc = true -> contains (py "tax") desc = true.
Proof.
  rewrite !contains_occurs. intros H.
  apply (occurs_trans _ (py "income tax")); [|exact H].
  rewrite income_tax_text. apply occurs_suffix.
Qed.

Lemma tax_rule (desc : pystr) :
  any_in [py "tax"; py "income tax"] desc = any_in [py "tax"] desc.
Proof.
  unfold any_in. cbn [existsb]. rewrite !orb_false_r.
  destruct (contains (py "tax") desc) eqn:E; [reflexivity|]. cbn [orb].
  destruct (contains (py "income tax") desc) eqn:E'; [|reflexivity].
  apply income_tax_has_tax in E'. congruence.
Qed.

(** X15.  The keyword "income tax" of line 139 never decides anything: a
    description that holds it holds "tax", so the [if]/[elif] chain
    chooses as it would without that keyword, and such a description is
    never filed under "Other". *)
Theorem income_tax_keyword_never_decides :
  forall desc : pystr,
    categorize desc = first_match RULES_WITHOUT_INCOME_TAX desc
    /\ (contains (py "income tax") desc = true -> categorize desc <> py "Other").
Proof.
  intros desc. split.
  - unfold categorize. rewrite tax_rule. reflexivity.
  - intros H. apply income_tax_has_tax in H.
    assert (any_in [py "tax"; py "income tax"] desc = true) as Ht
        by (unfold any_in; cbn [existsb]; now rewrite H).
    unfold categorize. rewrite Ht.
    destruct (any_in [py "rent"; py "home"] desc); [vm_compute; discriminate|].
    destruct (any_in [py "food"; py "dine"; py "restaurant"; py "cafe"] desc);
      [vm_compute; discriminate|].
    destruct (any_in [py "grocery"; py "supermarket"] desc); vm_compute; discriminate.
Qed.

(** ** The sentence about the top category *)

Lemma max_by_value_in (items : totals) (best : pystr * float) :
  In (max_by_value best items) (best :: items).
Proof.
  revert best; induction items as [|x items IH]; intros best.
  - left. reflexivity.
  - replace (max_by_value best (x :: items))
      with (max_by_value (if (snd best <? snd x)%float then x else best) items)
      by reflexivity.
    destruct (IH (if (snd best <? snd x)%float then x else best)) as [H|H].
    + rewrite <- H. destruct (snd best <? snd x)%float; [right; now left | now left].
    + right; now right.
Qed.

Lemma top_category_in (categories : totals) (best : pystr * float) :
  top_category categories = Some best -> In best categories.
Proof.
  destruct categories as [|first rest]; cbn [top_category]; [discriminate|].
  intros H. injection H as <-. apply max_by_value_in.
Qed.

Lemma top_category_none (categories : totals) :
  top_category categories = None -> categories = [].
Proof. destruct categories; [reflexivity | discriminate]. Qed.

Lemma in_assoc_nodup {A : Type} (items : list (pystr * A)) (k : pystr) (v : A) :
  NoDup (map fst items) -> In (k, v) items -> assoc k items = Some v.
Proof.
  induction items as [|[k' v'] rest IH]; cbn [map fst assoc In]; [intros _ []|].
  intros Hn [H|H].
  - injection H as -> ->. now rewrite eqb_refl.
  - apply NoDup_cons_iff in Hn as [Hk Hn].
    destruct (eqb k k') eqn:E.
    + apply eqb_eq in E. subst k'. exfalso. apply Hk.
      apply in_map_iff. now exists (k, v).
    + now apply IH.
Qed.

(** X16.  The first sentence of an insights answer is either the sentence
    for no transactions, when the categories dict is empty, or names one
    of the five labels together with the total the dict holds for it,
    printed with two decimals. *)
Theorem insights_sentence_names_a_category_of_the_dict :
  forall (b : backend) (data body : value),
    api_insights b data = Ok body ->
    exists (categories : totals) (prompt : pystr),
      insights_figures data = Ok (categories, prompt)
      /\ ((categories = []
           /\ answer_text body
              = py "No transactions supplied — provide some transactions for insights."
                  ++ py "\n\nAI Suggestions:\n" ++ generate_text b prompt 140)
          \/ (exists (label : pystr) (total : float),
                In label LABELS
                /\ assoc label categories = Some total
                /\ answer_text body
                   = (py "Top spending category: " ++ label ++ py " (₹" ++ format_2f total
                        ++ py "). Consider reducing it by 10%.")
                       ++ py "\n\nAI Suggestions:\n" ++ generate_text b prompt 140)).
Proof.
  intros b data body H. unfold api_insights in H.
  apply bind_ok in H as [[categories prompt] [Hf H]].
  apply Ok_inj in H. subst body. rewrite answer_text_jsonify.
  exists categories, prompt. split; [exact Hf|].
  unfold insights_figures in Hf.
  apply bind_ok in Hf as [txns [_ Hf]]. apply bind_ok in Hf as [demographic [_ Hf]].
  apply bind_ok in Hf as [items [_ Hf]]. apply bind_ok in Hf as [cats [Hl Hf]].
  apply bind_ok in Hf as [context [_ Hf]]. apply Ok_inj in Hf.
  apply pair_fst_inj in Hf. subst cats.
  destruct (insights_loop_keys items categories Hl) as [Hn Hi].
  unfold insights_line. destruct (top_category categories) as [[label total]|] eqn:E.
  - right. exists label, total. apply top_category_in in E.
    split; [|split; [now apply in_assoc_nodup | reflexivity]].
    apply Hi. apply in_map_iff. now exists (label, total).
  - left. apply top_category_none in E. now split.
Qed.

Lemma insights_sentence_names_a_category_of_the_dict_witness :
  api_insights (load_backend (Raise (OtherError []))) insights_example
  = Ok (jsonify (py "insights")
          (py "Top spending category: Rent (₹1000.00). Consider reducing it by 10%.\n\nAI Suggestions:\nSorry — AI backend not configured. Install HuggingFace/Torch or connect IBM/Granite."))
  /\ exists (categories : totals) (prompt : pystr),
      insights_figures insights_example = Ok (categories, prompt)
      /\ ((categories = []
           /\ answer_text
                (jsonify (py "insights")
                   (py "Top spending category: Rent (₹1000.00). Consider reducing it by 10%.\n\nAI Suggestions:\nSorry — AI backend not configured. Install HuggingFace/Torch or connect IBM/Granite."))
              = py "No transactions supplied — provide some transactions for insights."
                  ++ py "\n\nAI Suggestions:\n"
                  ++ generate_text (load_backend (Raise (OtherError []))) prompt 140)
          \/ (exists (label : pystr) (total : float),
                In label LABELS
                /\ assoc label categories = Some total
                /\ answer_text
                     (jsonify (py "insights")
                        (py "Top spending category: Rent (₹1000.00). Consider reducing it by 10%.\n\nAI Suggestions:\nSorry — AI backend not configured. Install HuggingFace/Torch or connect IBM/Granite."))
                   = (py "Top spending category: " ++ label ++ py " (₹" ++ format_2f total
                        ++ py "). Consider reducing it by 10%.")
                       ++ py "\n\nAI Suggestions:\n"
                       ++ generate_text (load_backend (Raise (OtherError []))) prompt 140)).
Proof.
  assert (api_insights (load_backend (Raise (OtherError []))) insights_example
          = Ok (jsonify (py "insights")
                  (py "Top spending category: Rent (₹1000.00). Consider reducing it by 10%.\n\nAI Suggestions:\nSorry — AI backend not configured. Install HuggingFace/Torch or connect IBM/Granite."))) as H
      by (vm_compute; reflexivity).
  split; [exact H|].
  exact (insights_sentence_names_a_category_of_the_dict _ _ _ H).
Defined.

(** ** A budget request without transactions *)

Lemma float_sub_zero (x : float) : (x - 0)%float = x.
Proof.
  apply Prim2SF_inj. rewrite sub_spec.
  change (Prim2SF 0) with (S754_zero false).
  destruct (Prim2SF x) as [s|s| |s m e]; try reflexivity.
  destruct s; reflexivity.
Qed.

Lemma float_sub_int_zero (x : float) : float_sub x (PInt 0) = Ok x.
Proof.
  unfold float_sub.
  replace (float_of_int 0) with (Ok 0%float) by (vm_compute; reflexivity).
  cbn [bind]. now rewrite float_sub_zero.
Qed.

Lemma no_transactions_iter (items : list (pystr * value)) :
  no_transactions items = true ->
  exists txns demographic,
    dict_get (VDict items) (py "transactions") (VList []) = Ok txns
    /\ py_iter txns = Ok []
    /\ json_dumps txns = py "[]"
    /\ dict_get (VDict items) (py "demographic") (VStr (py "default")) = Ok demographic
    /\ exists context, profile_get demographic [] = Ok context.
Proof.
  unfold no_transactions. intros H. apply andb_true_iff in H as [Ht Hd].
  exists (VList []).
  exists (match assoc (py "demographic") items with
          | Some d => d
          | None => VStr (py "default")
          end).
  split; [|split; [reflexivity | split; [vm_compute; reflexivity | split; [reflexivity|]]]].
  - unfold dict_get. destruct (assoc (py "transactions") items) as [[| | | | |[|? ?]|]|];
      try discriminate; reflexivity.
  - destruct (assoc (py "demographic") items) as [d|].
    + unfold profile_get.
      assert (exists found, profile_lookup d = Ok found) as [found ->]
          by (destruct d; try discriminate; cbn [profile_lookup]; eexists; reflexivity).
      cbn [bind]. eexists. reflexivity.
    + rewrite profile_get_default. now exists DEFAULT_CONTEXT.
Qed.

Lemma zero_spent_lines (rest : pystr) :
  py "\nTotal Spent: ₹" ++ number_str (PInt 0) ++ py "\nEstimated Savings: ₹" ++ rest
  = py "\nTotal Spent: ₹0\nEstimated Savings: ₹" ++ rest.
Proof.
  rewrite (app_assoc (number_str (PInt 0))), (app_assoc (py "\nTotal Spent: ₹")).
  replace (py "\nTotal Spent: ₹" ++ number_str (PInt 0) ++ py "\nEstimated Savings: ₹")
    with (py "\nTotal Spent: ₹0\nEstimated Savings: ₹") by (vm_compute; reflexivity).
  reflexivity.
Qed.

(** X17.  A budget request with no transactions prints the total spent as
    the integer "0" (the [sum] of nothing), not "0.0", and the estimated
    savings equal the income. *)
Theorem budget_without_transactions :
  forall (compensated : bool) (b : backend) (items : list (pystr * value)) (income : float),
    no_transactions items = true ->
    coerce_field (VDict items) (py "incomeMonthly") = Ok income ->
    exists prompt : pystr,
      built_prompt Budget compensated (VDict items) = Ok prompt
      /\ api_budget compensated b (VDict items)
         = Ok (jsonify (py "summary")
                 ((py "Monthly Income: ₹" ++ float_repr income
                     ++ py "\nTotal Spent: ₹0\nEstimated Savings: ₹" ++ float_repr income
                     ++ py "\n")
                    ++ py "\nAI Summary:\n" ++ generate_text b prompt 180)).
Proof.
  intros compensated b items income Hn Hi.
  destruct (no_transactions_iter items Hn) as [txns [demographic [Ht [Hit [_ [Hd [context Hc]]]]]]].
  assert (budget_figures compensated (VDict items)
          = Ok (income, PInt 0, income, budget_prompt_text context txns income)) as Hf.
  { unfold budget_figures. rewrite Hi. cbn [bind]. rewrite Ht. cbn [bind].
    rewrite Hd. cbn [bind]. rewrite Hit. cbn [bind map_outcome py_sum].
    rewrite float_sub_int_zero. cbn [bind]. rewrite Hc. reflexivity. }
  exists (budget_prompt_text context txns income). split.
  - cbn [built_prompt]. rewrite Hf. reflexivity.
  - rewrite (api_budget_ok _ _ _ _ _ _ _ Hf). unfold budget_block.
    rewrite zero_spent_lines. reflexivity.
Qed.

Lemma budget_without_transactions_witness :
  no_transactions [(py "incomeMonthly", VInt 5000)] = true
  /\ coerce_field (VDict [(py "incomeMonthly", VInt 5000)]) (py "incomeMonthly") = Ok 5000%float
  /\ exists prompt : pystr,
      built_prompt Budget false (VDict [(py "incomeMonthly", VInt 5000)]) = Ok prompt
      /\ api_budget false (load_backend (Raise (OtherError [])))
           (VDict [(py "incomeMonthly", VInt 5000)])
         = Ok (jsonify (py "summary")
                 ((py "Monthly Income: ₹" ++ float_repr 5000%float
                     ++ py "\nTotal Spent: ₹0\nEstimated Savings: ₹" ++ float_repr 5000%float
                     ++ py "\n")
                    ++ py "\nAI Summary:\n"
                    ++ generate_text (load_backend (Raise (OtherError []))) prompt 180)).
Proof.
  assert (no_transactions [(py "incomeMonthly", VInt 5000)] = true) as H1
      by (vm_compute; reflexivity).
  assert (coerce_field (VDict [(py "incomeMonthly", VInt 5000)]) (py "incomeMonthly")
          = Ok 5000%float) as H2
      by (vm_compute; reflexivity).
  split; [exact H1|]. split; [exact H2|].
  exact (budget_without_transactions false _ _ _ H1 H2).
Defined.

(** ** Transactions of the wrong shape *)

Lemma dict_get_present (items : list (pystr * value)) (k : pystr) (v default : value) :
  assoc k items = Some v -> dict_get (VDict items) k default = Ok v.
Proof. intros H. unfold dict_get. now rewrite H. Qed.

Lemma py_iter_not_iterable (v : value) :
  not_iterable v = true -> py_iter v = Raise TypeError.
Proof. destruct v; try discriminate; reflexivity. Qed.

Lemma bind_raise {A B : Type} (m : outcome A) (k : A -> outcome B) (e : exn) :
  m = Raise e -> bind m k = Raise e.
Proof. intros ->. reflexivity. Qed.

Lemma budget_figures_iter_raises (compensated : bool) (items : list (pystr * value))
      (txns : value) (e : exn) :
  assoc (py "transactions") items = Some txns ->
  (py_iter txns = Raise e
   \/ exists elems, py_iter txns = Ok elems /\ map_outcome coerce_amount elems = Raise e) ->
  exists e', budget_figures compensated (VDict items) = Raise e'.
Proof.
  intros Ht H. unfold budget_figures.
  destruct (coerce_field (VDict items) (py "incomeMonthly")) as [income|e0];
    [|now exists e0].
  cbn [bind]. rewrite (dict_get_present _ _ _ _ Ht). cbn [bind].
  destruct (dict_get (VDict items) (py "demographic") (VStr (py "default"))) as [d|e0];
    [|now exists e0].
  cbn [bind]. destruct H as [H | [elems [H1 H2]]].
  - rewrite H. now exists e.
  - rewrite H1. cbn [bind]. rewrite H2. now exists e.
Qed.

Lemma insights_figures_iter_raises (items : list (pystr * value)) (txns : value) (e : exn) :
  assoc (py "transactions") items = Some txns ->
  (py_iter txns = Raise e
   \/ exists elems, py_iter txns = Ok elems /\ insights_loop [] elems = Raise e) ->
  insights_figures (VDict items) = Raise e.
Proof.
  intros Ht H. unfold insights_figures.
  rewrite (dict_get_present _ _ _ _ Ht). cbn [bind].
  destruct (dict_get (VDict items) (py "demographic") (VStr (py "default"))) as [d|e0] eqn:Ed;
    [|discriminate].
  cbn [bind]. destruct H as [H | [elems [H1 H2]]].
  - now rewrite H.
  - rewrite H1. cbn [bind]. now rewrite H2.
Qed.

(** X18.  When "transactions" is null, a boolean or a number, the [for]
    loop cannot start: [api_insights] raises [TypeError], and so does
    [api_budget] once the income has been read; both answer 500. *)
Theorem transactions_must_be_iterable :
  forall (compensated : bool) (b : backend) (items : list (pystr * value)) (txns : value),
    assoc (py "transactions") items = Some txns ->
    not_iterable txns = true ->
    http_status (handler Budget compensated b (VDict items)) = 500%Z
    /\ handler Insights compensated b (VDict items) = Raise TypeError
    /\ (forall income : float,
          coerce_field (VDict items) (py "incomeMonthly") = Ok income ->
          handler Budget compensated b (VDict items) = Raise TypeError).
Proof.
  intros compensated b items txns Ht Hn. apply py_iter_not_iterable in Hn.
  split; [|split].
  - destruct (budget_figures_iter_raises compensated items txns TypeError Ht (or_introl Hn))
      as [e' He].
    cbn [handler]. unfold api_budget. now rewrite He.
  - cbn [handler]. unfold api_insights.
    now rewrite (insights_figures_iter_raises items txns TypeError Ht (or_introl Hn)).
  - intros income Hi. cbn [handler]. unfold api_budget, budget_figures.
    rewrite Hi. cbn [bind]. rewrite (dict_get_present _ _ _ _ Ht). cbn [bind].
    unfold dict_get at 1. cbn [bind]. now rewrite Hn.
Qed.

Lemma transactions_must_be_iterable_witness :
  assoc (py "transactions") [(py "transactions", VInt 7)] = Some (VInt 7)
  /\ not_iterable (VInt 7) = true
  /\ http_status (handler Budget false (load_backend (Raise (OtherError [])))
                    (VDict [(py "transactions", VInt 7)])) = 500%Z
  /\ handler Insights false (load_backend (Raise (OtherError [])))
       (VDict [(py "transactions", VInt 7)]) = Raise TypeError
  /\ (forall income : float,
        coerce_field (VDict [(py "transactions", VInt 7)]) (py "incomeMonthly") = Ok income ->
        handler Budget false (load_backend (Raise (OtherError [])))
          (VDict [(py "transactions", VInt 7)]) = Raise TypeError).
Proof.
  assert (assoc (py "transactions") [(py "transactions", VInt 7)] = Some (VInt 7)) as H1
      by (vm_compute; reflexivity).
  assert (not_iterable (VInt 7) = true) as H2 by reflexivity.
  split; [exact H1|]. split; [exact H2|].
  exact (transactions_must_be_iterable false _ _ _ H1 H2).
Defined.

Lemma coerce_amount_not_object (t : value) :
  is_object t = false -> coerce_amount t = Raise AttributeError.
Proof. destruct t; try discriminate; reflexivity. Qed.

Lemma observe_not_object (t : value) :
  is_object t = false -> observe t = Raise AttributeError.
Proof. destruct t; try discriminate; reflexivity. Qed.

Lemma map_outcome_not_object (elems : list value) :
  forallb is_object elems = false -> exists e, map_outcome coerce_amount elems = Raise e.
Proof.
  induction elems as [|t elems IH]; cbn [forallb map_outcome]; [discriminate|].
  intros H. destruct (coerce_amount t) as [a|e] eqn:E; [|now exists e].
  cbn [bind]. destruct (is_object t) eqn:Ho.
  - destruct (IH H) as [e ->]. now exists e.
  - rewrite (coerce_amount_not_object t Ho) in E. discriminate.
Qed.

Lemma insights_loop_not_object (elems : list value) (categories : totals) :
  forallb is_object elems = false -> exists e, insights_loop categories elems = Raise e.
Proof.
  revert categories; induction elems as [|t elems IH]; intros categories;
    cbn [forallb insights_loop]; [discriminate|].
  intros H. rewrite insights_step_observe.
  destruct (observe t) as [o|e] eqn:E; [|now exists e].
  cbn [bind]. destruct (is_object t) eqn:Ho.
  - apply IH. exact H.
  - rewrite (observe_not_object t Ho) in E. discriminate.
Qed.

(** X19.  Every item the loop finds in "transactions" has to be a JSON
    object: when one is not (an array of numbers, a string, whose items
    are its characters, an object, whose items are its keys), the budget
    and the insights endpoint answer 500. *)
Theorem transactions_must_be_objects :
  forall (compensated : bool) (b : backend) (items : list (pystr * value))
         (txns : value) (elems : list value),
    assoc (py "transactions") items = Some txns ->
    py_iter txns = Ok elems ->
    forallb is_object elems = false ->
    http_status (handler Budget compensated b (VDict items)) = 500%Z
    /\ http_status (handler Insights compensated b (VDict items)) = 500%Z.
Proof.
  intros compensated b items txns elems Ht Hi Ho. split.
  - destruct (map_outcome_not_object elems Ho) as [e He].
    destruct (budget_figures_iter_raises compensated items txns e Ht
                (or_intror (ex_intro _ elems (conj Hi He)))) as [e' He'].
    cbn [handler]. unfold api_budget. now rewrite He'.
  - destruct (insights_loop_not_object elems [] Ho) as [e He].
    cbn [handler]. unfold api_insights.
    now rewrite (insights_figures_iter_raises items txns e Ht
                   (or_intror (ex_intro _ elems (conj Hi He)))).
Qed.

Lemma transactions_must_be_objects_witness :
  assoc (py "transactions") [(py "transactions", VStr (py "rent"))] = Some (VStr (py "rent"))
  /\ py_iter (VStr (py "rent")) = Ok [VStr (py "r"); VStr (py "e"); VStr (py "n"); VStr (py "t")]
  /\ forallb is_object [VStr (py "r"); VStr (py "e"); VStr (py "n"); VStr (py "t")] = false
  /\ http_status (handler Budget false (load_backend (Raise (OtherError [])))
                    (VDict [(py "transactions", VStr (py "rent"))])) = 500%Z
  /\ http_status (handler Insights false (load_backend (Raise (OtherError [])))
                    (VDict [(py "transactions", VStr (py "rent"))])) = 500%Z.
Proof.
  assert (assoc (py "transactions") [(py "transactions", VStr (py "rent"))]
          = Some (VStr (py "rent"))) as H1 by (vm_compute; reflexivity).
  assert (py_iter (VStr (py "rent"))
          = Ok [VStr (py "r"); VStr (py "e"); VStr (py "n"); VStr (py "t")]) as H2
      by (vm_compute; reflexivity).
  assert (forallb is_object [VStr (py "r"); VStr (py "e"); VStr (py "n"); VStr (py "t")]
          = false) as H3 by reflexivity.
  split; [exact H1|]. split; [exact H2|]. split; [exact H3|].
  exact (transactions_must_be_objects false _ _ _ _ H1 H2 H3).
Defined.
